(** * Resume generator: cost accounting, role selection, prompts and the
      bounded generation pipeline

    A shallow embedding of [src/generate.py] and [src/models/prompts.py].

    - Python [int] is [Z]; Python [float] is IEEE binary64, taken from the
      standard library's [SpecFloat] at precision 53 and maximal exponent
      1024, so every arithmetic step below rounds as the interpreter does.
    - A Python exception is a value of [exn]; a call that may raise returns
      a [result].
    - Mutable objects (the cost tracker, the random source, the semaphore,
      the output directory) are threaded explicitly. *)

From Stdlib Require Import ZArith Lia Bool Ascii String Floats.
From Stdlib Require Import Decimal DecimalString DecimalZ DecimalPos.
From stdpp Require Import base list strings gmap.

Local Open Scope Z_scope.

(** ** Exceptions and results *)

Inductive exn : Type :=
| KeyError
| IndexError
| ValueError
| ZeroDivisionError
| OverflowError
| JSONDecodeError
| APIError
| RenderError
| CancelledError.

Inductive result (A : Type) : Type :=
| Ok (a : A)
| Raise (e : exn).
Arguments Ok {A} a.
Arguments Raise {A} e.

Definition is_ok {A} (r : result A) : bool :=
  match r with Ok _ => true | Raise _ => false end.

(** Sequencing stops at the first exception. *)
#[global] Instance result_ret : MRet result := fun A a => Ok a.
#[global] Instance result_bind : MBind result := fun A B k r =>
  match r with
  | Ok a => k a
  | Raise e => Raise e
  end.

(** ** Numbers *)

(** Binary64. *)
Definition float : Type := spec_float.
Definition fadd : float -> float -> float := SFadd prec emax.
Definition fmul : float -> float -> float := SFmul prec emax.
Definition fdiv : float -> float -> float := SFdiv prec emax.
Definition flt : float -> float -> bool := SFltb.
Definition fle : float -> float -> bool := SFleb.
Definition fzero : float := S754_zero false.
Definition fone : float := S754_finite false 4503599627370496 (-52).

Definition is_zero (x : float) : bool :=
  match x with S754_zero _ => true | _ => false end.
Definition is_finite (x : float) : bool :=
  match x with S754_zero _ | S754_finite _ _ _ => true | _ => false end.

(** A Python number: the interpreter keeps [int] and [float] apart, and
    [sum([])] or the literal [0] is the [int]. *)
Inductive pynum : Type :=
| PyInt (n : Z)
| PyFloat (x : float).

(** The integer [n] as mantissa with exponent 0 (not normalised). *)
Definition int_mantissa (n : Z) : float :=
  match n with
  | Z0 => S754_zero false
  | Zpos p => S754_finite false p 0
  | Zneg p => S754_finite true p 0
  end.

(** [float(n)] for an [int] inside the binary64 range: round to nearest, ties
    to even.  It is used on lengths and small counts only. *)
Definition float_of_int (n : Z) : float := binary_normalize prec emax n 0 false.

(** A quotient [a / b] of [int]s rounds to a value of magnitude [2^1024] or
    more exactly when [|a| >= (2^1024 - 2^970) * |b|]. *)
Definition DBL_OVERFLOW : Z := 2 ^ 1024 - 2 ^ 970.

(** [a / b] on two [int]s (true division): the correctly rounded quotient;
    [ZeroDivisionError] on [b = 0], [OverflowError] when the quotient is too
    large for a float. *)
Definition int_truediv (a b : Z) : result float :=
  if b =? 0 then Raise ZeroDivisionError
  else if DBL_OVERFLOW * Z.abs b <=? Z.abs a then Raise OverflowError
  else Ok (fdiv (int_mantissa a) (int_mantissa b)).

(** [x / n] for a [float] [x] and an [int] [n]. *)
Definition float_truediv_int (x : float) (n : Z) : result float :=
  if n =? 0 then Raise ZeroDivisionError
  else Ok (fdiv x (float_of_int n)).

(** [n / x] for an [int] [n] and a [float] [x]. *)
Definition int_truediv_float (n : Z) (x : float) : result float :=
  if is_zero x then Raise ZeroDivisionError
  else Ok (fdiv (float_of_int n) x).

Definition py_truediv_int (a : pynum) (n : Z) : result pynum :=
  match a with
  | PyInt k => q ← int_truediv k n; Ok (PyFloat q)
  | PyFloat x => q ← float_truediv_int x n; Ok (PyFloat q)
  end.

Definition to_float (a : pynum) : float :=
  match a with
  | PyInt n => float_of_int n
  | PyFloat x => x
  end.

(** [a + b]: exact on two [int]s, binary64 as soon as one side is a float. *)
Definition py_add (a b : pynum) : pynum :=
  match a, b with
  | PyInt x, PyInt y => PyInt (x + y)
  | _, _ => PyFloat (fadd (to_float a) (to_float b))
  end.

(** The builtin [sum]: start at the [int] 0 and add from the left. *)
Definition py_sum (l : list pynum) : pynum := foldl py_add (PyInt 0) l.

(** [sum] over [int]s is exact. *)
Definition int_sum (l : list Z) : Z := foldr Z.add 0 l.

(** ** Configuration constants of [generate.py] *)

(** [0.05] and [0.40] as the interpreter reads them: the nearest binary64
    values, [0x1.999999999999ap-5] and [0x1.999999999999ap-2]. *)
Definition PRICE_INPUT_PER_1M : float := S754_finite false 7205759403792794 (-57).
Definition PRICE_OUTPUT_PER_1M : float := S754_finite false 7205759403792794 (-54).

Definition MAX_CONCURRENT : Z := 15.
Definition OUTPUT_DIR : string := "output".
Definition TEMPLATES : list string :=
  ["minimal.html"; "modern.html"; "classic.html"; "corporate.html"]%string.

(** ** [CostTracker] *)

Record CostTracker : Type := mkCostTracker {
  total_input_tokens : Z;
  total_output_tokens : Z;
  resume_costs : list float;
}.

(** [CostTracker()] *)
Definition CostTracker_new : CostTracker := mkCostTracker 0 0 [].

(** [add_usage]: both counters are bumped first; the cost is computed next
    (either division may raise, leaving the counters bumped); the cost is
    appended last and returned. *)
Definition add_usage (self : CostTracker) (input_tokens output_tokens : Z)
  : CostTracker * result float :=
  let self := mkCostTracker (total_input_tokens self + input_tokens)
                (total_output_tokens self) (resume_costs self) in
  let self := mkCostTracker (total_input_tokens self)
                (total_output_tokens self + output_tokens) (resume_costs self) in
  match int_truediv input_tokens 1000000 with
  | Raise e => (self, Raise e)
  | Ok mi =>
    match int_truediv output_tokens 1000000 with
    | Raise e => (self, Raise e)
    | Ok mo =>
      let cost := fadd (fmul mi PRICE_INPUT_PER_1M) (fmul mo PRICE_OUTPUT_PER_1M) in
      (mkCostTracker (total_input_tokens self) (total_output_tokens self)
         (resume_costs self ++ [cost]), Ok cost)
    end
  end.

(** The [total_cost] property. *)
Definition total_cost (self : CostTracker) : pynum :=
  py_sum (PyFloat <$> resume_costs self).

(** The [avg_cost] property. *)
Definition avg_cost (self : CostTracker) : result pynum :=
  match resume_costs self with
  | [] => Ok (PyInt 0)
  | _ :: _ => py_truediv_int (total_cost self) (Z.of_nat (length (resume_costs self)))
  end.

(** A sequence of [add_usage] calls on one tracker, with what each returned. *)
Fixpoint add_usages (self : CostTracker) (calls : list (Z * Z))
  : CostTracker * list (result float) :=
  match calls with
  | [] => (self, [])
  | (i, o) :: rest =>
    let '(self', r) := add_usage self i o in
    let '(self'', rs) := add_usages self' rest in
    (self'', r :: rs)
  end.

(** Largest token count (exclusive) whose division by one million is a float. *)
Definition TOKEN_LIMIT : Z := DBL_OVERFLOW * 1000000.

Definition usage_in_range (c : Z * Z) : Prop :=
  0 <= c.1 < TOKEN_LIMIT /\ 0 <= c.2 < TOKEN_LIMIT.

(** The tracker after the first [n] calls of a sequence. *)
Definition tracker_after (n : nat) (calls : list (Z * Z)) : CostTracker :=
  (add_usages CostTracker_new (take n calls)).1.

(** The cost expression of [add_usage] on token counts that divide. *)
Definition usage_cost (c : Z * Z) : float :=
  fadd (fmul (fdiv (int_mantissa c.1) (int_mantissa 1000000)) PRICE_INPUT_PER_1M)
       (fmul (fdiv (int_mantissa c.2) (int_mantissa 1000000)) PRICE_OUTPUT_PER_1M).

(** ** Strings *)

Local Open Scope string_scope.

(** The double quote character, as a one-character string. *)
Definition dq : string := String (ascii_of_nat 34) EmptyString.

(** Decimal digits of [|n|]. *)
Definition digits (n : Z) : string :=
  NilZero.string_of_uint (N.to_uint (Z.abs_N n)).

(** [str(n)] for an [int]. *)
Definition py_str_int (n : Z) : string :=
  if (n <? 0)%Z then "-" +:+ digits n else digits n.

(** ["0" * k] *)
Fixpoint zeros (k : nat) : string :=
  match k with
  | O => ""
  | S k => String "0" (zeros k)
  end.

(** Zeros in front of [s], as many as [s] is short of [width]. *)
Definition zfill (width : nat) (s : string) : string :=
  zeros (width - String.length s) +:+ s.

(** The number a string of decimal digits denotes. *)
Definition parse_digits (s : string) : option N :=
  N.of_uint <$> NilEmpty.uint_of_string s.

(** The format specification [04d]: sign first, zeros up to a total width
    of four characters, never a truncation. *)
Definition format_04d (n : Z) : string :=
  if (n <? 0)%Z then "-" +:+ zfill 3 (digits n) else zfill 4 (digits n).

(** [OUTPUT_DIR / f"resume_{index:04d}.pdf"] *)
Definition pdf_path (index : Z) : string :=
  OUTPUT_DIR +:+ "/" +:+ "resume_" +:+ format_04d index +:+ ".pdf".

(** [OUTPUT_DIR / "cost_log.json"] *)
Definition cost_file : string := OUTPUT_DIR +:+ "/" +:+ "cost_log.json".

(** [str.format] with keyword arguments, for templates whose replacement
    fields are plain names ([{role}]); [{{] and [}}] are literal braces.
    [field] is the name being read, when inside a field. *)
Fixpoint str_format_go (template : string) (field : option string)
    (kwargs : list (string * string)) : result string :=
  match template, field with
  | EmptyString, None => Ok ""
  | EmptyString, Some _ => Raise ValueError
  | String c rest, Some name =>
    if Ascii.eqb c "}" then
      if String.eqb name "" then Raise IndexError
      else
        match (list_to_map kwargs : gmap string string) !! name with
        | None => Raise KeyError
        | Some v => out ← str_format_go rest None kwargs; Ok (v +:+ out)
        end
    else if Ascii.eqb c "{" then Raise ValueError
    else str_format_go rest (Some (name +:+ String c "")) kwargs
  | String c rest, None =>
    if Ascii.eqb c "{" then
      match rest with
      | String c' rest' =>
        if Ascii.eqb c' "{" then
          out ← str_format_go rest' None kwargs; Ok (String "{" out)
        else str_format_go rest (Some "") kwargs
      | EmptyString => Raise ValueError
      end
    else if Ascii.eqb c "}" then
      match rest with
      | String c' rest' =>
        if Ascii.eqb c' "}" then
          out ← str_format_go rest' None kwargs; Ok (String "}" out)
        else Raise ValueError
      | EmptyString => Raise ValueError
      end
    else out ← str_format_go rest None kwargs; Ok (String c out)
  end.

Definition str_format (template : string) (kwargs : list (string * string))
  : result string :=
  str_format_go template None kwargs.

(** ** [models/prompts.py] *)

(** The values [json.dumps] is applied to here: strings, lists and objects
    with their keys in order. *)
#[local] Set Warnings "-register-all".
Inductive jvalue : Type :=
| JStr (s : string)
| JArr (items : list jvalue)
| JObj (members : list (string * jvalue)).

(** A JSON string literal; backslash and the double quote are escaped. *)
Fixpoint json_escape (s : string) : string :=
  match s with
  | EmptyString => ""
  | String c rest =>
    if Ascii.eqb c (ascii_of_nat 34) then "\" +:+ dq +:+ json_escape rest
    else if Ascii.eqb c "\" then "\\" +:+ json_escape rest
    else String c (json_escape rest)
  end.

Definition json_string (s : string) : string := dq +:+ json_escape s +:+ dq.

(** [json.dumps(v, separators=(',', ':'))] *)
Fixpoint json_dumps_compact (v : jvalue) : string :=
  match v with
  | JStr s => json_string s
  | JArr items =>
    "[" +:+ String.concat "," (map json_dumps_compact items) +:+ "]"
  | JObj members =>
    "{" +:+ String.concat ","
      (map (fun kv => json_string kv.1 +:+ ":" +:+ json_dumps_compact kv.2) members)
    +:+ "}"
  end.

Definition RESUME_SCHEMA : jvalue :=
  JObj [
    ("summary", JStr "2-3 sentence professional summary with keywords");
    ("skills", JArr [JStr "skill1"; JStr "skill2"; JStr "..."]);
    ("experience", JArr [
      JObj [
        ("title", JStr "Standard Job Title (no abbreviations)");
        ("company", JStr "Fictional Company Name");
        ("location", JStr "City, State");
        ("start_date", JStr "Month YYYY");
        ("end_date", JStr "Month YYYY or Present");
        ("bullets", JArr [JStr "Action verb + task + result/metric"; JStr "..."])
      ]
    ]);
    ("education", JArr [
      JObj [
        ("degree", JStr "Full Degree Name (e.g., Bachelor of Science in Computer Science)");
        ("institution", JStr "University Name");
        ("year", JStr "YYYY");
        ("gpa", JStr "3.X (optional, only if > 3.5)")
      ]
    ]);
    ("certifications", JArr [JStr "Full Certification Name (Issuing Organization)"])
  ].

Definition SCHEMA_STR : string := json_dumps_compact RESUME_SCHEMA.

Definition get_seniority_tier (years : Z) : string :=
  if (years <=? 4)%Z then "junior"
  else if (years <=? 10)%Z then "mid"
  else "senior".

Definition SYSTEM_PROMPT : string :=
"Generate fictional resume JSON optimized for ATS parsing.

ATS Rules:
- Use standard job titles (Software Engineer not SWE, Project Manager not PM)
- Dates as " +:+ dq +:+ "Month YYYY" +:+ dq +:+ " format (January 2023, not Jan 2023 or 01/2023)
- Start bullets with strong action verbs (Led, Developed, Implemented, Managed, Designed)
- Include quantified achievements (%, $, numbers) in bullets
- Skills as individual items, no compound skills
- Full degree names (Bachelor of Science, not BS or B.S.)
- Include industry keywords naturally in summary and bullets

Content Rules:
- All data fictional - no real people/companies
- Company names: use patterns like " +:+ dq +:+ "Vertex Technologies" +:+ dq +:+ ", "
  +:+ dq +:+ "Apex Solutions" +:+ dq +:+ ", " +:+ dq +:+ "Summit Group" +:+ dq +:+ "
- Dates must be logical: no overlaps, recent job ends " +:+ dq +:+ "Present" +:+ dq +:+ " or within 6 months
- Output valid JSON only".

Definition TIER_PROMPTS : gmap string string :=
  <[ "junior" :=
"{role} in {industry}, {seniority}yrs exp.
1-2 jobs, education focus, 2-3 bullets each.
Include: relevant coursework/projects, internships count as jobs.
Skills: 8-12 relevant technical and soft skills.
Schema:{schema}" ]>
  (<[ "mid" :=
"{role} in {industry}, {seniority}yrs exp.
3-4 jobs, balanced achievements, 3-4 bullets each.
Include: promotions, team leadership, project ownership.
Skills: 12-15 skills mixing technical expertise and domain knowledge.
Schema:{schema}" ]>
  (<[ "senior" :=
"{role} in {industry}, {seniority}yrs exp.
4-5 jobs, leadership focus, 4-5 bullets each.
Include: team size managed, budget responsibility, strategic initiatives.
Skills: 15-20 skills including leadership, strategy, and technical expertise.
Schema:{schema}" ]> ∅)).

Definition build_prompt (industry role : string) (seniority : Z)
  : result (string * string) :=
  let tier := get_seniority_tier seniority in
  match TIER_PROMPTS !! tier with
  | None => Raise KeyError
  | Some template =>
    user_prompt ← str_format template
      [("role", role); ("industry", industry);
       ("seniority", py_str_int seniority); ("schema", SCHEMA_STR)];
    Ok (SYSTEM_PROMPT, user_prompt)
  end.

Local Close Scope string_scope.

(** ** Collaborators *)

(** One industry's entry of [data/role_mapping.json]. *)
Record role_entry : Type := mkRoleEntry {
  primary : list string;
  secondary : list string;
  weights : list pynum;
}.

(** What the program takes from outside: the shared generator of the
    [random] module with its two primitive draws, the role mapping table
    read at import time, and [json.loads] on the response body (the parsed
    resume record is opaque to the pipeline). *)
Class Collaborators : Type := {
  rng : Type;
  rng_random : rng -> float * rng;
  rng_randbelow : Z -> rng -> Z * rng;
  ROLE_MAPPING : gmap string role_entry;
  resume_data : Type;
  json_loads : string -> result resume_data;
}.

(** The documented ranges of the two draws: [random()] is a float in
    [[0.0, 1.0)], [_randbelow(n)] an [int] in [[0, n)]. *)
Class RandomInRange `{Collaborators} : Prop := {
  random_unit : forall g, let r := (rng_random g).1 in
    SpecFloat.valid_binary prec emax r = true /\ fle fzero r = true /\ flt r fone = true;
  randbelow_range : forall n g, 0 < n -> 0 <= (rng_randbelow n g).1 < n;
}.

(** [range(lo, hi)] *)
Definition py_range (lo hi : Z) : list Z := seqZ lo (hi - lo).

Section Random.
Context `{Collaborators}.

(** [random.choice(seq)] *)
Definition random_choice {A} (seq : list A) (g : rng) : result A * rng :=
  match seq with
  | [] => (Raise IndexError, g)
  | _ :: _ =>
    let '(i, g) := rng_randbelow (Z.of_nat (length seq)) g in
    (match seq !! Z.to_nat i with
     | Some x => Ok x
     | None => Raise IndexError
     end, g)
  end.

(** [random.randint(a, b)], that is [randrange(a, b + 1)] *)
Definition random_randint (a b : Z) (g : rng) : result Z * rng :=
  let width := b + 1 - a in
  if 0 <? width then
    let '(i, g) := rng_randbelow width g in (Ok (a + i), g)
  else (Raise ValueError, g).

(** [itertools.accumulate(weights)] *)
Fixpoint accumulate_from (acc : pynum) (l : list pynum) : list pynum :=
  match l with
  | [] => []
  | w :: l => let acc := py_add acc w in acc :: accumulate_from acc l
  end.

Definition accumulate (l : list pynum) : list pynum :=
  match l with
  | [] => []
  | w :: l => w :: accumulate_from w l
  end.

(** [x < a] for a float [x] and a weight [a]. *)
Definition float_lt_num (x : float) (a : pynum) : bool := flt x (to_float a).

(** The loop of [bisect.bisect_right(a, x, lo, hi)]; [hi - lo] iterations
    always suffice. *)
Fixpoint bisect_loop (fuel : nat) (a : list pynum) (x : float) (lo hi : Z)
  : result Z :=
  match fuel with
  | O => Ok lo
  | S fuel =>
    if lo <? hi then
      let mid := (lo + hi) `div` 2 in
      match a !! Z.to_nat mid with
      | None => Raise IndexError
      | Some am =>
        if float_lt_num x am then bisect_loop fuel a x lo mid
        else bisect_loop fuel a x (mid + 1) hi
      end
    else Ok lo
  end.

Definition bisect_right (a : list pynum) (x : float) (lo hi : Z) : result Z :=
  bisect_loop (Z.to_nat (hi - lo)) a x lo hi.

(** [random.choices(population, weights=weights)[0]] *)
Definition random_choices {A} (population : list A) (weights : list pynum)
    (g : rng) : result A * rng :=
  let cum_weights := accumulate weights in
  let n := Z.of_nat (length population) in
  if negb (Z.of_nat (length cum_weights) =? n) then (Raise ValueError, g)
  else
    match last cum_weights with
    | None => (Raise IndexError, g)
    | Some w =>
      let total := fadd (to_float w) fzero in
      if fle total fzero then (Raise ValueError, g)
      else if negb (is_finite total) then (Raise ValueError, g)
      else
        let hi := n - 1 in
        let '(r, g) := rng_random g in
        (i ← bisect_right cum_weights (fmul r total) 0 hi;
         match population !! Z.to_nat i with
         | Some x => Ok x
         | None => Raise IndexError
         end, g)
    end.

(** [INDUSTRIES = list(ROLE_MAPPING.keys())]; the order of the keys is the
    file's and plays no part below. *)
Definition INDUSTRIES : list string := (map_to_list ROLE_MAPPING).*1.

Definition select_role (industry : string) (g : rng) : result string * rng :=
  match ROLE_MAPPING !! industry with
  | None => (Raise KeyError, g)
  | Some mapping =>
    let weights := weights mapping in
    let '(r, g) :=
      random_choices (py_range 0 (Z.of_nat (length weights))) weights g in
    match r with
    | Raise e => (Raise e, g)
    | Ok tier_index =>
      if tier_index =? 0 then random_choice (primary mapping) g
      else random_choice (secondary mapping) g
    end
  end.

(** The four draws at the head of [generate_single_resume]. *)
Definition draw_request (g : rng) : result (string * string * Z * string) * rng :=
  let '(r, g) := random_choice INDUSTRIES g in
  match r with
  | Raise e => (Raise e, g)
  | Ok industry =>
    let '(r, g) := select_role industry g in
    match r with
    | Raise e => (Raise e, g)
    | Ok role =>
      let '(r, g) := random_randint 1 18 g in
      match r with
      | Raise e => (Raise e, g)
      | Ok seniority =>
        let '(r, g) := random_choice TEMPLATES g in
        match r with
        | Raise e => (Raise e, g)
        | Ok template_name => (Ok (industry, role, seniority, template_name), g)
        end
      end
    end
  end.
End Random.

(** ** [generate_resume_data] *)

(** What the pipeline reads from a chat completion. *)
Record ChatCompletion : Type := mkChatCompletion {
  prompt_tokens : Z;
  completion_tokens : Z;
  content : string;
}.

Section Generation.
Context `{Collaborators}.

(** After the response has arrived: record the usage, then parse the body. *)
Definition record_and_parse (response : ChatCompletion) (cost_tracker : CostTracker)
  : CostTracker * result (resume_data * float) :=
  let '(cost_tracker, r) :=
    add_usage cost_tracker (prompt_tokens response) (completion_tokens response) in
  match r with
  | Raise e => (cost_tracker, Raise e)
  | Ok cost =>
    match json_loads (content response) with
    | Raise e => (cost_tracker, Raise e)
    | Ok data => (cost_tracker, Ok (data, cost))
    end
  end.

End Generation.

(** ** The pipeline: [generate_single_resume] and [main_async] *)

(** A piece of a formatted table cell: literal text, [f"{x:.Nf}"] or
    [f"{n:,}"]. *)
Inductive piece : Type :=
| Lit (s : string)
| Fixed (places : nat) (x : pynum)
| Grouped (n : Z).

(** A value of the cost log. *)
Inductive logvalue : Type :=
| LNum (n : pynum)
| LList (l : list float).

(** [create_summary_table]: the rows in order; the speed row divides by the
    elapsed time. *)
Definition create_summary_table (total : Z) (elapsed : float)
    (cost_tracker : CostTracker) : result (list (string * list piece)) :=
  speed ← int_truediv_float total elapsed;
  avg ← avg_cost cost_tracker;
  Ok [("Resumes Generated", [Lit (py_str_int total)]);
      ("Total Time", [Fixed 1 (PyFloat elapsed); Lit "s"]);
      ("Speed", [Fixed 1 (PyFloat speed); Lit " resumes/sec"]);
      ("", [Lit ""]);
      ("Input Tokens", [Grouped (total_input_tokens cost_tracker)]);
      ("Output Tokens", [Grouped (total_output_tokens cost_tracker)]);
      ("", [Lit ""]);
      ("Avg Cost/Resume", [Lit "$"; Fixed 6 avg]);
      ("Total Cost", [Lit "$"; Fixed 4 (total_cost cost_tracker)])]%string.

(** The [cost_log] dictionary, keys in insertion order. *)
Definition cost_log (total : Z) (elapsed : float) (cost_tracker : CostTracker)
  : result (list (string * logvalue)) :=
  avg ← avg_cost cost_tracker;
  Ok [("total_resumes", LNum (PyInt total));
      ("total_time_seconds", LNum (PyFloat elapsed));
      ("total_input_tokens", LNum (PyInt (total_input_tokens cost_tracker)));
      ("total_output_tokens", LNum (PyInt (total_output_tokens cost_tracker)));
      ("total_cost_usd", LNum (total_cost cost_tracker));
      ("avg_cost_per_resume_usd", LNum avg);
      ("per_resume_costs_usd", LList (resume_costs cost_tracker))]%string.

Section Pipeline.
Context `{Collaborators}.

(** Where one [generate_single_resume] coroutine stands. *)
Inductive phase : Type :=
| Pending
| Selecting
| Requesting (template_name system_prompt user_prompt : string)
| Rendering (data : resume_data) (cost : float) (template_name : string)
| Finished (cost : float)
| Failed (e : exn).

(** Inside [async with semaphore]. *)
Definition holds_slot (p : phase) : bool :=
  match p with
  | Selecting | Requesting _ _ _ | Rendering _ _ _ => true
  | Pending | Finished _ | Failed _ => false
  end.

(** Awaiting [client.chat.completions.create]. *)
Definition calls_api (p : phase) : bool :=
  match p with Requesting _ _ _ => true | _ => false end.

Definition settled (p : phase) : bool :=
  match p with Finished _ | Failed _ => true | _ => false end.

Definition finished (p : phase) : bool :=
  match p with Finished _ => true | _ => false end.

Record job : Type := mkJob { index : Z; status : phase }.

(** A file written during the run. *)
Inductive artifact : Type :=
| PdfFile (data : resume_data) (template_name : string)
| CostLogFile (log : list (string * logvalue)).

Record run_state : Type := mkRun {
  semaphore : Z;
  jobs : list job;
  cost_tracker : CostTracker;
  random_state : rng;
  written : gmap string artifact;
  progress : Z;
  raised : option exn;
}.

(** How many jobs are in a phase that satisfies [f]. *)
Definition count (f : phase -> bool) (js : list job) : Z :=
  foldr (fun j n => (if f (status j) then 1 else 0) + n) 0 js.

(** The usage of the job has been recorded and its body parsed. *)
Definition recorded (p : phase) : bool :=
  match p with Rendering _ _ _ | Finished _ => true | _ => false end.

(** The job has got past its request: by a parsed or rejected response, or
    by any failure. *)
Definition past_request (p : phase) : bool :=
  match p with Rendering _ _ _ | Finished _ | Failed _ => true | _ => false end.

(** The moves of one coroutine from phase to phase. *)
Inductive job_move : phase -> phase -> Prop :=
| move_acquire : job_move Pending Selecting
| move_select template_name system_prompt user_prompt :
    job_move Selecting (Requesting template_name system_prompt user_prompt)
| move_respond template_name system_prompt user_prompt data cost :
    job_move (Requesting template_name system_prompt user_prompt)
             (Rendering data cost template_name)
| move_finish data cost template_name :
    job_move (Rendering data cost template_name) (Finished cost)
| move_fail p e : holds_slot p = true -> job_move p (Failed e)
| move_cancel : job_move Pending (Failed CancelledError).

Definition slot (p : phase) : Z := if holds_slot p then 1 else 0.

(** [main_async] up to the launch of the tasks: the semaphore (its
    constructor refuses a negative value), a fresh tracker, and one
    coroutine per index of [range(1, total + 1)]. *)
Definition main_async_start (total concurrency : Z) (g : rng) : result run_state :=
  if concurrency <? 0 then Raise ValueError
  else Ok (mkRun concurrency ((fun i => mkJob i Pending) <$> py_range 1 (total + 1))
             CostTracker_new g ∅ 0 None).

(** Entering [async with semaphore]. *)
Definition enter (k : nat) (i : Z) (s : run_state) : run_state :=
  mkRun (semaphore s - 1) (<[k := mkJob i Selecting]> (jobs s)) (cost_tracker s)
    (random_state s) (written s) (progress s) (raised s).

(** Staying inside the block, in phase [p]. *)
Definition proceed (k : nat) (i : Z) (p : phase) (s : run_state) : run_state :=
  mkRun (semaphore s) (<[k := mkJob i p]> (jobs s)) (cost_tracker s)
    (random_state s) (written s) (progress s) (raised s).

(** Leaving the block through an exception: the slot goes back, and
    [gather] keeps the first exception it sees. *)
Definition fail (k : nat) (i : Z) (e : exn) (s : run_state) : run_state :=
  mkRun (semaphore s + 1) (<[k := mkJob i (Failed e)]> (jobs s)) (cost_tracker s)
    (random_state s) (written s) (progress s)
    (match raised s with Some e0 => Some e0 | None => Some e end).

(** Lines 171-174 and the prompt of the request. *)
Definition after_select (k : nat) (i : Z) (s : run_state) : run_state :=
  let '(r, g) := draw_request (random_state s) in
  let s := mkRun (semaphore s) (jobs s) (cost_tracker s) g (written s)
             (progress s) (raised s) in
  match r with
  | Raise e => fail k i e s
  | Ok (industry, role, seniority, template_name) =>
    match build_prompt industry role seniority with
    | Raise e => fail k i e s
    | Ok (system_prompt, user_prompt) =>
      proceed k i (Requesting template_name system_prompt user_prompt) s
    end
  end.

(** The response has arrived: the rest of [generate_resume_data]. *)
Definition after_response (k : nat) (i : Z) (template_name : string)
    (response : ChatCompletion) (s : run_state) : run_state :=
  let '(t, r) := record_and_parse response (cost_tracker s) in
  let s := mkRun (semaphore s) (jobs s) t (random_state s) (written s)
             (progress s) (raised s) in
  match r with
  | Raise e => fail k i e s
  | Ok (data, cost) => proceed k i (Rendering data cost template_name) s
  end.

(** [render_pdf] wrote the file, the progress bar advanced, the coroutine
    returned [(index, cost)] and left the block. *)
Definition after_render (k : nat) (i : Z) (data : resume_data) (cost : float)
    (template_name : string) (s : run_state) : run_state :=
  mkRun (semaphore s + 1) (<[k := mkJob i (Finished cost)]> (jobs s)) (cost_tracker s)
    (random_state s) (<[pdf_path i := PdfFile data template_name]> (written s))
    (progress s + 1) (raised s).

(** A task cancelled while it waits for a slot never held one. *)
Definition cancel_pending (k : nat) (i : Z) (s : run_state) : run_state :=
  mkRun (semaphore s) (<[k := mkJob i (Failed CancelledError)]> (jobs s))
    (cost_tracker s) (random_state s) (written s) (progress s) (raised s).

(** One step of one coroutine.  The interleaving is free: every schedule of
    the event loop is a sequence of these steps. *)
Inductive step (s : run_state) : run_state -> Prop :=
| step_acquire k i :
    jobs s !! k = Some (mkJob i Pending) ->
    0 < semaphore s ->
    step s (enter k i s)
| step_select k i :
    jobs s !! k = Some (mkJob i Selecting) ->
    step s (after_select k i s)
| step_response k i template_name system_prompt user_prompt response :
    jobs s !! k = Some (mkJob i (Requesting template_name system_prompt user_prompt)) ->
    step s (after_response k i template_name response s)
| step_api_error k i template_name system_prompt user_prompt e :
    jobs s !! k = Some (mkJob i (Requesting template_name system_prompt user_prompt)) ->
    step s (fail k i e s)
| step_render k i data cost template_name :
    jobs s !! k = Some (mkJob i (Rendering data cost template_name)) ->
    step s (after_render k i data cost template_name s)
| step_render_error k i data cost template_name e :
    jobs s !! k = Some (mkJob i (Rendering data cost template_name)) ->
    step s (fail k i e s)
| step_cancel_pending k i :
    is_Some (raised s) ->
    jobs s !! k = Some (mkJob i Pending) ->
    step s (cancel_pending k i s)
| step_cancel_request k i template_name system_prompt user_prompt :
    is_Some (raised s) ->
    jobs s !! k = Some (mkJob i (Requesting template_name system_prompt user_prompt)) ->
    step s (fail k i CancelledError s).

(** What a step that takes job [k] (index [i]) from phase [p] to [p'] does
    to the shared state: it takes or returns a slot accordingly, writes the
    job's own file when it finishes, appends at most one cost, and never
    clears the exception [gather] has seen. *)
Definition step_effect (s s' : run_state) (k : nat) (i : Z) (p p' : phase) : Prop :=
  jobs s !! k = Some (mkJob i p) /\
  jobs s' = <[k := mkJob i p']> (jobs s) /\
  job_move p p' /\
  semaphore s' = semaphore s + slot p - slot p' /\
  (p = Pending -> p' = Selecting -> 0 < semaphore s) /\
  (finished p' = false -> written s' = written s) /\
  (finished p' = true -> exists a, written s' = <[pdf_path i := a]> (written s)) /\
  resume_costs (cost_tracker s) `prefix_of` resume_costs (cost_tracker s') /\
  ((forall e, p' <> Failed e) ->
     raised s' = raised s /\
     Z.of_nat (length (resume_costs (cost_tracker s'))) =
       Z.of_nat (length (resume_costs (cost_tracker s)))
       + (if recorded p' then 1 else 0) - (if recorded p then 1 else 0)) /\
  (forall e, raised s = Some e -> raised s' = Some e) /\
  (forall e, p' = Failed e -> is_Some (raised s')).

(** Invariants of a run. *)

(** Free slots plus jobs inside the block is the limit, in every state. *)
Definition slots_conserved (concurrency : Z) (s : run_state) : Prop :=
  semaphore s + count holds_slot (jobs s) = concurrency /\ 0 <= semaphore s.

(** The files written so far are the PDFs of the finished jobs. *)
Definition files_match (s : run_state) : Prop :=
  forall path : string,
    is_Some (written s !! path) <->
    exists (k : nat) (i : Z) (c : float),
      jobs s !! k = Some (mkJob i (Finished c)) /\ path = pdf_path i.

(** While [gather] has seen no exception, one cost is recorded per job that
    got its response parsed. *)
Definition costs_match (s : run_state) : Prop :=
  raised s = None ->
  Z.of_nat (length (resume_costs (cost_tracker s))) = count recorded (jobs s).

(** A state some schedule of the run reaches. *)
Definition reachable (total concurrency : Z) (g : rng) (s : run_state) : Prop :=
  exists s0, main_async_start total concurrency g = Ok s0 /\ rtc step s0 s.

(** What [await asyncio.gather( *tasks )] gives once it returns: the first
    exception, or nothing when every task has returned. *)
Definition gather (s : run_state) : option (result unit) :=
  match raised s with
  | Some e => Some (Raise e)
  | None => if forallb (fun j => finished (status j)) (jobs s) then Some (Ok ()) else None
  end.

(** [main_async] after [gather] has returned: the summary, then the cost
    log when asked for. *)
Definition main_async_finish (total : Z) (save_costs : bool) (elapsed : float)
    (s : run_state) : result run_state :=
  _ ← create_summary_table total elapsed (cost_tracker s);
  if save_costs then
    log ← cost_log total elapsed (cost_tracker s);
    Ok (mkRun (semaphore s) (jobs s) (cost_tracker s) (random_state s)
          (<[cost_file := CostLogFile log]> (written s)) (progress s) (raised s))
  else Ok s.

(** A whole call of [main_async]: the files written while it ran and how
    it ended. *)
Inductive main_async (total : Z) (save_costs : bool) (concurrency : Z)
    (elapsed : float) (g : rng) : gmap string artifact -> result unit -> Prop :=
| main_async_no_semaphore e :
    main_async_start total concurrency g = Raise e ->
    main_async total save_costs concurrency elapsed g ∅ (Raise e)
| main_async_job_raised s e :
    reachable total concurrency g s ->
    gather s = Some (Raise e) ->
    main_async total save_costs concurrency elapsed g (written s) (Raise e)
| main_async_summary_raised s e :
    reachable total concurrency g s ->
    gather s = Some (Ok ()) ->
    main_async_finish total save_costs elapsed s = Raise e ->
    main_async total save_costs concurrency elapsed g (written s) (Raise e)
| main_async_returned s s' :
    reachable total concurrency g s ->
    gather s = Some (Ok ()) ->
    main_async_finish total save_costs elapsed s = Ok s' ->
    main_async total save_costs concurrency elapsed g (written s') (Ok ()).
End Pipeline.

(** The weight vector [[a, b]] of a table entry, written with [int]s or
    with floats. *)
Definition weight_vector (a b : Z) (ws : list pynum) : Prop :=
  ws = [PyInt a; PyInt b] \/ ws = [PyFloat (float_of_int a); PyFloat (float_of_int b)].

(** ** A deterministic stand-in for the collaborators

    Used to exercise the statements below on concrete runs: the generator
    counts its draws, [random()] alternates between [0.0] and [0.5],
    [_randbelow(n)] is the draw count modulo [n], the table has one industry
    per extreme weight vector, and a body parses when it opens a JSON
    object. *)
Definition fhalf : float := S754_finite false 4503599627370496 (-53).

Definition demo_table : gmap string role_entry :=
  <[ "Technology" :=
       mkRoleEntry ["Software Engineer"; "Data Engineer"] ["Project Manager"]
         [PyInt 1; PyInt 0] ]>
  (<[ "Finance" :=
       mkRoleEntry ["Financial Analyst"] ["Accountant"; "Auditor"]
         [PyInt 0; PyInt 1] ]> ∅)%string.

Definition demo_json_loads (body : string) : result string :=
  match body with
  | String c _ => if Ascii.eqb c "{" then Ok body else Raise JSONDecodeError
  | EmptyString => Raise JSONDecodeError
  end.

Definition demo : Collaborators := {|
  rng := nat;
  rng_random := fun g => (if Nat.even g then fzero else fhalf, S g);
  rng_randbelow := fun n g => (Z.of_nat g `mod` n, S g);
  ROLE_MAPPING := demo_table;
  resume_data := string;
  json_loads := demo_json_loads;
|}.

(** A run of the stand-in with one job and one slot: the job acquires the
    slot and draws its request; then either a well-formed body arrives and
    the job renders and returns, or a malformed one arrives and the job
    fails. *)
Definition demo_start : @run_state demo :=
  @mkRun demo 1 [@mkJob demo 1 (@Pending demo)] CostTracker_new 0%nat ∅ 0 None.

Definition demo_requesting : @run_state demo :=
  @after_select demo 0 1 (@enter demo 0 1 demo_start).

Definition demo_response : ChatCompletion := mkChatCompletion 100 50 "{}".

Definition demo_malformed_response : ChatCompletion :=
  mkChatCompletion 100 50 "Sorry, I cannot help with that.".

Definition demo_rendering : @run_state demo :=
  @after_response demo 0 1 "minimal.html" demo_response demo_requesting.

Definition demo_finished : @run_state demo :=
  @after_render demo 0 1 "{}"%string (usage_cost (100, 50)) "minimal.html"
    demo_rendering.

Definition demo_failed : @run_state demo :=
  @after_response demo 0 1 "minimal.html" demo_malformed_response demo_requesting.

(** ** [render_pdf]: the record handed to the template and the PDF metadata *)

(** A value [json.loads] can produce. *)
Inductive pyjson : Type :=
| PNull
| PBool (b : bool)
| PNumber (n : pynum)
| PString (s : string)
| PArray (items : list pyjson)
| PObject (members : list (string * pyjson)).

(** What [render_pdf] asks of Faker, in the order of the calls. *)
Record FakeContact : Type := mkFakeContact {
  fake_name : string;
  fake_email : string;
  fake_phone_number : string;
  fake_city : string;
  fake_state_abbr : string;
}.

(** The four assignments into [resume_data]. *)
Definition add_contact_info (resume_data : gmap string pyjson) (fake : FakeContact)
  : gmap string pyjson :=
  <[ "location" := PString (fake_city fake +:+ ", " +:+ fake_state_abbr fake) ]>
  (<[ "phone" := PString (fake_phone_number fake) ]>
  (<[ "email" := PString (fake_email fake) ]>
  (<[ "name" := PString (fake_name fake) ]> resume_data)))%string.

Definition as_string (v : pyjson) : option string :=
  match v with PString s => Some s | _ => None end.

Fixpoint characters (s : string) : list string :=
  match s with
  | EmptyString => []
  | String c rest => String c EmptyString :: characters rest
  end.

(** [", ".join(resume_data.get("skills", [])[:10])]; [None] when the slice
    or the join raises (a value that cannot be sliced, an item that is no
    string). *)
Definition skills_keywords (resume_data : gmap string pyjson) : option string :=
  match resume_data !! "skills"%string with
  | None => Some EmptyString
  | Some (PArray items) => String.concat ", " <$> mapM as_string (take 10 items)
  | Some (PString s) => Some (String.concat ", " (take 10 (characters s)))
  | Some _ => None
  end.

(** The [metadata] dictionary of [render_pdf]. *)
Definition pdf_metadata (resume_data : gmap string pyjson) (name : string)
  : option (list (string * string)) :=
  keywords ← skills_keywords resume_data;
  Some [("title", "Resume - " +:+ name); ("author", name);
        ("subject", "Professional Resume"); ("keywords", keywords);
        ("creator", "Resume Generator")]%string.

(** * Properties *)

(** ** Sanity of the numeric model *)

Example price_literals :
  PRICE_INPUT_PER_1M = Prim2SF 0x1.999999999999ap-5%float /\
  PRICE_OUTPUT_PER_1M = Prim2SF 0x1.999999999999ap-2%float /\
  int_truediv 5 100 = Ok PRICE_INPUT_PER_1M /\
  int_truediv 40 100 = Ok PRICE_OUTPUT_PER_1M.
Proof. vm_compute. repeat split. Qed.

Example overflow_threshold :
  is_finite (fdiv (int_mantissa (DBL_OVERFLOW * 3 - 1)) (int_mantissa 3)) = true /\
  fdiv (int_mantissa (DBL_OVERFLOW * 3)) (int_mantissa 3) = S754_infinity false.
Proof. vm_compute. split; reflexivity. Qed.

Example schema_str_prefix :
  String.substring 0 12 SCHEMA_STR = ("{" +:+ dq +:+ "summary" +:+ dq +:+ ":" +:+ dq)%string /\
  String.length SCHEMA_STR = 581%nat.
Proof. vm_compute. split; reflexivity. Qed.

(** ** The cost tracker *)

Lemma int_truediv_million (n : Z) :
  Z.abs n < TOKEN_LIMIT ->
  int_truediv n 1000000 = Ok (fdiv (int_mantissa n) (int_mantissa 1000000)).
Proof.
  intros Hn. unfold int_truediv.
  change (1000000 =? 0) with false. change (Z.abs 1000000) with 1000000.
  unfold TOKEN_LIMIT in Hn.
  destruct (Z.leb_spec (DBL_OVERFLOW * 1000000) (Z.abs n)) as [Hle|_]; [lia|done].
Qed.

Lemma add_usage_in_range (self : CostTracker) (i o : Z) :
  Z.abs i < TOKEN_LIMIT -> Z.abs o < TOKEN_LIMIT ->
  add_usage self i o =
    (mkCostTracker (total_input_tokens self + i) (total_output_tokens self + o)
       (resume_costs self ++ [usage_cost (i, o)]),
     Ok (usage_cost (i, o))).
Proof.
  intros Hi Ho. unfold add_usage.
  rewrite (int_truediv_million _ Hi), (int_truediv_million _ Ho). reflexivity.
Qed.

Lemma add_usages_from (calls : list (Z * Z)) : forall self : CostTracker,
  Forall usage_in_range calls ->
  add_usages self calls =
    (mkCostTracker (total_input_tokens self + int_sum (calls.*1))
       (total_output_tokens self + int_sum (calls.*2))
       (resume_costs self ++ (usage_cost <$> calls)),
     Ok <$> (usage_cost <$> calls)).
Proof.
  induction calls as [|[i o] calls IH]; intros self Hall.
  - simpl. rewrite !Z.add_0_r, app_nil_r. by destruct self.
  - apply Forall_cons in Hall as [[Hi Ho] Hall]. simpl in Hi, Ho.
    cbn [add_usages].
    rewrite (add_usage_in_range self i o) by lia.
    rewrite (IH _ Hall). cbn.
    rewrite <- !Z.add_assoc, <- app_assoc. reflexivity.
Qed.

(** C1. Starting from a fresh tracker, a sequence of [add_usage] calls whose
    token counts are non-negative (and small enough for the division by one
    million to be a float) all return; afterwards [total_cost] is the sum of
    the returned costs, the two token counters are the sums of the input and
    output counts, and [resume_costs] holds one entry per call.  After every
    prefix of the calls [total_cost] is the sum of [resume_costs], and the
    next call does not decrease either counter. *)
Theorem add_usage_sequence_totals (calls : list (Z * Z)) :
  Forall usage_in_range calls ->
  let self := (add_usages CostTracker_new calls).1 in
  let returned := (add_usages CostTracker_new calls).2 in
  let costs := usage_cost <$> calls in
  returned = Ok <$> costs /\
  total_cost self = py_sum (PyFloat <$> costs) /\
  total_input_tokens self = int_sum (calls.*1) /\
  total_output_tokens self = int_sum (calls.*2) /\
  length (resume_costs self) = length calls /\
  forall n : nat,
    total_cost (tracker_after n calls)
      = py_sum (PyFloat <$> resume_costs (tracker_after n calls)) /\
    total_input_tokens (tracker_after n calls)
      <= total_input_tokens (tracker_after (S n) calls) /\
    total_output_tokens (tracker_after n calls)
      <= total_output_tokens (tracker_after (S n) calls).
Proof.
  intros Hall. cbv zeta.
  rewrite (add_usages_from calls CostTracker_new Hall). cbn [fst snd].
  repeat split.
  - cbn. by rewrite length_fmap.
  - unfold tracker_after.
    rewrite !add_usages_from by (by apply Forall_take). cbn.
    destruct (calls !! n) as [[i o]|] eqn:Hn.
    + rewrite (take_S_r _ _ _ Hn), fmap_app. cbn.
      unfold int_sum. rewrite foldr_app. cbn.
      apply (Forall_lookup_1 _ _ _ _ Hall) in Hn as [[Hi _] _]. simpl in Hi.
      clear -Hi. induction (take n calls).*1 as [|x l IH]; cbn; lia.
    + apply lookup_ge_None in Hn. rewrite !take_ge by lia. lia.
  - unfold tracker_after.
    rewrite !add_usages_from by (by apply Forall_take). cbn.
    destruct (calls !! n) as [[i o]|] eqn:Hn.
    + rewrite (take_S_r _ _ _ Hn), fmap_app. cbn.
      unfold int_sum. rewrite foldr_app. cbn.
      apply (Forall_lookup_1 _ _ _ _ Hall) in Hn as [_ [Ho _]]. simpl in Ho.
      clear -Ho. induction (take n calls).*2 as [|x l IH]; cbn; lia.
    + apply lookup_ge_None in Hn. rewrite !take_ge by lia. lia.
Qed.

Lemma add_usage_sequence_totals_witness :
  let calls := [(100, 50); (0, 0); (1000000, 7)] in
  let self := (add_usages CostTracker_new calls).1 in
  Forall usage_in_range calls /\
  total_input_tokens self = 1000100 /\
  total_output_tokens self = 57 /\
  length (resume_costs self) = 3%nat.
Proof.
  assert (Hall : Forall usage_in_range [(100, 50); (0, 0); (1000000, 7)]).
  { repeat constructor; vm_compute; congruence. }
  pose proof (add_usage_sequence_totals _ Hall) as (_ & _ & Hi & Ho & Hlen & _).
  cbv zeta. split; [exact Hall|]. rewrite Hi, Ho, Hlen. repeat split.
Defined.

(** Three jobs, each with 100 input and 50 output tokens. *)
Example three_jobs_usage :
  let self := (add_usages CostTracker_new [(100, 50); (100, 50); (100, 50)]).1 in
  total_input_tokens self = 300 /\ total_output_tokens self = 150 /\
  resume_costs self = replicate 3 (usage_cost (100, 50)) /\
  total_cost self =
    PyFloat (fadd (fadd (fadd fzero (usage_cost (100, 50))) (usage_cost (100, 50)))
               (usage_cost (100, 50))).
Proof. vm_compute. repeat split. Qed.

(** C4. On token counts whose division by one million is a float,
    [add_usage] returns [(input_tokens / 1_000_000) * PRICE_INPUT_PER_1M +
    (output_tokens / 1_000_000) * PRICE_OUTPUT_PER_1M] in binary64, whatever
    the tracker holds, and appends that same value; one million input tokens
    alone cost exactly [PRICE_INPUT_PER_1M], one million output tokens alone
    exactly [PRICE_OUTPUT_PER_1M]. *)
Theorem add_usage_returns_cost (self : CostTracker) (input_tokens output_tokens : Z) :
  Z.abs input_tokens < TOKEN_LIMIT ->
  Z.abs output_tokens < TOKEN_LIMIT ->
  (add_usage self input_tokens output_tokens).2 =
    Ok (fadd (fmul (fdiv (int_mantissa input_tokens) (int_mantissa 1000000))
                   PRICE_INPUT_PER_1M)
             (fmul (fdiv (int_mantissa output_tokens) (int_mantissa 1000000))
                   PRICE_OUTPUT_PER_1M)) /\
  last (resume_costs (add_usage self input_tokens output_tokens).1) =
    Some (usage_cost (input_tokens, output_tokens)) /\
  (add_usage self 1000000 0).2 = Ok PRICE_INPUT_PER_1M /\
  (add_usage self 0 1000000).2 = Ok PRICE_OUTPUT_PER_1M.
Proof.
  intros Hi Ho. rewrite (add_usage_in_range self _ _ Hi Ho). cbn [fst snd resume_costs].
  split; [reflexivity|]. split; [apply last_snoc|].
  split; unfold add_usage; vm_compute; reflexivity.
Qed.

Lemma add_usage_returns_cost_witness :
  (add_usage CostTracker_new 100 50).2 =
    Ok (S754_finite false 7378697629483821 (-68)).
Proof.
  assert (H1 : Z.abs 100 < TOKEN_LIMIT) by (vm_compute; reflexivity).
  assert (H2 : Z.abs 50 < TOKEN_LIMIT) by (vm_compute; reflexivity).
  destruct (add_usage_returns_cost CostTracker_new 100 50 H1 H2) as [-> _].
  vm_compute. reflexivity.
Defined.

Lemma py_sum_floats_from (cs : list float) : forall acc : float,
  exists total : float, foldl py_add (PyFloat acc) (PyFloat <$> cs) = PyFloat total.
Proof.
  induction cs as [|c cs IH]; intros acc; cbn; eauto.
Qed.

Lemma total_cost_is_float (self : CostTracker) :
  resume_costs self <> [] -> exists total : float, total_cost self = PyFloat total.
Proof.
  unfold total_cost, py_sum. destruct (resume_costs self) as [|c cs]; [done|].
  intros _. cbn. apply py_sum_floats_from.
Qed.

Lemma avg_cost_not_empty (self : CostTracker) :
  resume_costs self <> [] ->
  let count := Z.of_nat (length (resume_costs self)) in
  avg_cost self = py_truediv_int (total_cost self) count /\
  exists total : float,
    total_cost self = PyFloat total /\
    avg_cost self = Ok (PyFloat (fdiv total (float_of_int count))).
Proof.
  intros Hcosts. cbv zeta.
  destruct (total_cost_is_float self Hcosts) as [total Htotal].
  unfold avg_cost. destruct (resume_costs self) as [|c cs] eqn:E; [done|].
  split; [reflexivity|]. exists total. split; [done|].
  rewrite Htotal. unfold py_truediv_int, float_truediv_int.
  destruct (Z.eqb_spec (Z.of_nat (length (c :: cs))) 0) as [H0|_]; [|done].
  cbn [length] in H0. lia.
Qed.

Lemma avg_cost_returns (self : CostTracker) : is_ok (avg_cost self) = true.
Proof.
  destruct (resume_costs self) as [|c cs] eqn:E.
  - unfold avg_cost. by rewrite E.
  - destruct (avg_cost_not_empty self) as (_ & total & _ & ->); [by rewrite E|done].
Qed.

(** C5. With no recorded cost [avg_cost] is the [int] 0; it never raises
    [ZeroDivisionError] (in fact it never raises); with at least one recorded
    cost it is [total_cost] (a float) divided by the number of recorded
    costs. *)
Theorem avg_cost_defined :
  avg_cost CostTracker_new = Ok (PyInt 0) /\
  (forall self : CostTracker, resume_costs self = [] -> avg_cost self = Ok (PyInt 0)) /\
  (forall self : CostTracker, avg_cost self <> Raise ZeroDivisionError) /\
  (forall self : CostTracker, is_ok (avg_cost self) = true) /\
  (forall self : CostTracker, resume_costs self <> [] ->
     let count := Z.of_nat (length (resume_costs self)) in
     avg_cost self = py_truediv_int (total_cost self) count /\
     exists total : float,
       total_cost self = PyFloat total /\
       avg_cost self = Ok (PyFloat (fdiv total (float_of_int count)))).
Proof.
  split; [reflexivity|]. split.
  { intros self E. unfold avg_cost. by rewrite E. }
  split; [|split; [exact avg_cost_returns|exact avg_cost_not_empty]].
  intros self Hraise. pose proof (avg_cost_returns self) as Hok.
  by rewrite Hraise in Hok.
Qed.

(** The guard of [avg_cost] is what keeps the division away from zero. *)
Example unguarded_average_raises :
  py_truediv_int (total_cost CostTracker_new) 0 = Raise ZeroDivisionError.
Proof. reflexivity. Qed.

(** ** Binary64 facts used by the role selector *)

Lemma digits2_double (p : positive) :
  Z.pos (digits2_pos p~0) = Z.pos (digits2_pos p) + 1.
Proof. change (digits2_pos p~0) with (Pos.succ (digits2_pos p)). lia. Qed.

Lemma digits2_shift52 (m : positive) :
  Z.pos (digits2_pos (m * 4503599627370496)) = Z.pos (digits2_pos m) + 52.
Proof.
  rewrite Pos.mul_comm.
  let shifted := eval cbv in (4503599627370496 * m)%positive in
  change (4503599627370496 * m)%positive with shifted.
  rewrite !digits2_double. lia.
Qed.

Lemma shr_shift52 (m : positive) :
  SpecFloat.iter_pos shr_1 52 (Build_shr_record (Z.pos (m * 4503599627370496)) false false)
    = Build_shr_record (Z.pos m) false false.
Proof. rewrite Pos.mul_comm. reflexivity. Qed.

(** Rounding a mantissa shifted left by 52 bits gives the mantissa back. *)
Lemma round_shifted_mantissa (s : bool) (m : positive) (e : Z) :
  bounded prec emax m e = true ->
  binary_round_aux prec emax s (Zpos (m * 4503599627370496)) (e + -52) loc_Exact
    = S754_finite s m e.
Proof.
  unfold bounded, canonical_mantissa. intros Hb.
  apply andb_prop in Hb as [Hc He].
  apply Z.eqb_eq in Hc. apply Z.leb_le in He.
  unfold binary_round_aux, shr_fexp.
  cbn [Zdigits2]. rewrite digits2_shift52.
  replace (fexp prec emax (Z.pos (digits2_pos m) + 52 + (e + -52)) - (e + -52)) with 52
    by (unfold fexp in *; lia).
  cbn [shr shr_record_of_loc]. rewrite shr_shift52.
  cbn [shr_m loc_of_shr_record round_nearest_even Zdigits2].
  replace (e + -52 + 52) with e by lia.
  rewrite Hc, Z.sub_diag. cbn [shr shr_m].
  apply Z.leb_le in He. rewrite He. reflexivity.
Qed.

(** [x * 1.0] is [x]. *)
Lemma fmul_one_r (x : float) :
  SpecFloat.valid_binary prec emax x = true -> fmul x fone = x.
Proof.
  destruct x as [s|s| |s m e]; intros Hv; cbn.
  - destruct s; reflexivity.
  - destruct s; reflexivity.
  - reflexivity.
  - rewrite xorb_false_r. apply round_shifted_mantissa. exact Hv.
Qed.

(** [0.0 <= x] excludes [x < 0.0]. *)
Lemma fle_zero_not_lt (x : float) : fle fzero x = true -> flt x fzero = false.
Proof.
  destruct x as [s|s| |s m e]; cbn; try done; by destruct s.
Qed.

(** ** The stand-in generator keeps to the documented ranges *)

Lemma demo_in_range : @RandomInRange demo.
Proof.
  split.
  - intros g. cbn. destruct (Nat.even g); vm_compute; repeat split.
  - intros n g Hn. cbn. apply Z.mod_pos_bound. exact Hn.
Qed.

(** ** The role selector *)

Section RoleSelector.
Context `{Collaborators} `{!RandomInRange}.

Lemma random_choice_member {A} (seq : list A) (g : rng) :
  seq <> [] ->
  exists x, (random_choice seq g).1 = Ok x /\ x ∈ seq.
Proof.
  intros Hne. destruct seq as [|a seq]; [done|].
  unfold random_choice.
  pose proof (randbelow_range (Z.of_nat (length (a :: seq))) g) as Hr.
  destruct (rng_randbelow (Z.of_nat (length (a :: seq))) g) as [i g'].
  cbn [fst] in *.
  assert (Hi : (Z.to_nat i < length (a :: seq))%nat) by (cbn [length] in *; lia).
  apply lookup_lt_is_Some_2 in Hi as [x Hx]. rewrite Hx.
  exists x. split; [done|]. by eapply list_elem_of_lookup_2.
Qed.

(** The loop of [bisect_right] never runs out of iterations: with
    [hi - lo] of them or more the answer is the same. *)
Lemma bisect_loop_enough (a : list pynum) (x : float) (fuel : nat) :
  forall (fuel' : nat) (lo hi : Z),
    hi - lo <= Z.of_nat fuel -> (fuel <= fuel')%nat ->
    bisect_loop fuel' a x lo hi = bisect_loop fuel a x lo hi.
Proof.
  induction fuel as [|fuel IH]; intros fuel' lo hi Hfuel Hle.
  - destruct fuel' as [|fuel']; [done|]. cbn [bisect_loop].
    destruct (Z.ltb_spec lo hi); [lia|done].
  - destruct fuel' as [|fuel']; [lia|]. cbn [bisect_loop].
    destruct (Z.ltb_spec lo hi) as [Hlt|]; [|done].
    pose proof (Z.div_le_lower_bound (lo + hi) 2 lo ltac:(lia) ltac:(lia)).
    pose proof (Z.div_lt_upper_bound (lo + hi) 2 hi ltac:(lia) ltac:(lia)).
    destruct (a !! Z.to_nat ((lo + hi) `div` 2)) as [am|]; [|done].
    destruct (float_lt_num x am); apply IH; lia.
Qed.

Lemma bisect_right_enough (a : list pynum) (x : float) (lo hi : Z) (extra : nat) :
  bisect_loop (Z.to_nat (hi - lo) + extra) a x lo hi = bisect_right a x lo hi.
Proof. apply bisect_loop_enough; lia. Qed.

(** Two weights whose total is [1.0]: the tier is decided by comparing the
    draw with the first weight. *)
Lemma random_choices_two (w0 w1 : pynum) (g : rng) :
  fadd (to_float (py_add w0 w1)) fzero = fone ->
  random_choices [0; 1] [w0; w1] g =
    ((if float_lt_num (rng_random g).1 w0 then Ok 0 else Ok 1), (rng_random g).2).
Proof.
  intros Htotal. unfold random_choices.
  cbn [accumulate accumulate_from length last negb].
  change (Z.of_nat 2 =? Z.of_nat 2) with true. cbn [negb].
  rewrite Htotal.
  change (fle fone fzero) with false. change (is_finite fone) with true.
  cbn [negb].
  destruct (random_unit g) as (Hvalid & _ & _).
  destruct (rng_random g) as [r g']. cbn [fst snd] in *.
  rewrite (fmul_one_r r Hvalid).
  unfold bisect_right. change (Z.to_nat (Z.of_nat 2 - 1 - 0)) with 1%nat.
  cbn [bisect_loop]. change (0 <? Z.of_nat 2 - 1) with true.
  change (Z.to_nat ((0 + (Z.of_nat 2 - 1)) `div` 2)) with 0%nat.
  cbn [lookup list_lookup].
  destruct (float_lt_num r w0); reflexivity.
Qed.

Lemma random_choices_primary (ws : list pynum) (g : rng) :
  weight_vector 1 0 ws ->
  random_choices (py_range 0 (Z.of_nat (length ws))) ws g = (Ok 0, (rng_random g).2).
Proof.
  destruct (random_unit g) as (_ & _ & Hlt).
  intros [-> | ->]; change (py_range 0 _) with [0; 1];
    (rewrite random_choices_two by (vm_compute; reflexivity));
    unfold float_lt_num;
    [change (to_float (PyInt 1)) with fone
    |change (to_float (PyFloat (float_of_int 1))) with fone];
    cbv zeta in Hlt; by rewrite Hlt.
Qed.

Lemma random_choices_secondary (ws : list pynum) (g : rng) :
  weight_vector 0 1 ws ->
  random_choices (py_range 0 (Z.of_nat (length ws))) ws g = (Ok 1, (rng_random g).2).
Proof.
  destruct (random_unit g) as (_ & Hle & _). apply fle_zero_not_lt in Hle.
  intros [-> | ->]; change (py_range 0 _) with [0; 1];
    (rewrite random_choices_two by (vm_compute; reflexivity));
    unfold float_lt_num;
    [change (to_float (PyInt 0)) with fzero
    |change (to_float (PyFloat (float_of_int 0))) with fzero];
    by rewrite Hle.
Qed.

(** C6. For an industry of the table: with weights [[1, 0]] the role is
    the draw [random.choice] makes from the primary pool (the secondary
    pool is not consulted), so it is a member of the primary pool whenever
    that pool is not empty, and no member of the secondary pool when the two
    pools share no role; with weights [[0, 1]] the same holds with the pools
    exchanged; and whatever the weights, tier 0 draws from the primary pool
    and every other tier from the secondary pool. *)
Theorem select_role_by_tier (industry : string) (mapping : role_entry) (g : rng) :
  ROLE_MAPPING !! industry = Some mapping ->
  (weight_vector 1 0 (weights mapping) ->
     select_role industry g = random_choice (primary mapping) (rng_random g).2 /\
     (primary mapping <> [] ->
        exists role, (select_role industry g).1 = Ok role /\
          role ∈ primary mapping /\
          ((forall x, x ∈ primary mapping -> x ∉ secondary mapping) ->
             role ∉ secondary mapping))) /\
  (weight_vector 0 1 (weights mapping) ->
     select_role industry g = random_choice (secondary mapping) (rng_random g).2 /\
     (secondary mapping <> [] ->
        exists role, (select_role industry g).1 = Ok role /\
          role ∈ secondary mapping)) /\
  (forall (tier : Z) (g' : rng),
     random_choices (py_range 0 (Z.of_nat (length (weights mapping))))
       (weights mapping) g = (Ok tier, g') ->
     select_role industry g =
       if tier =? 0 then random_choice (primary mapping) g'
       else random_choice (secondary mapping) g').
Proof.
  intros Hmap. unfold select_role. rewrite Hmap. split_and!.
  - intros Hw. rewrite (random_choices_primary _ g Hw).
    change (0 =? 0) with true. cbv iota. split; [reflexivity|].
    intros Hne.
    destruct (random_choice_member (primary mapping) (rng_random g).2 Hne)
      as (role & Hrole & Hin).
    exists role. split; [exact Hrole|]. split; [exact Hin|]. auto.
  - intros Hw. rewrite (random_choices_secondary _ g Hw).
    change (1 =? 0) with false. cbv iota. split; [reflexivity|].
    intros Hne.
    apply (random_choice_member (secondary mapping) (rng_random g).2 Hne).
  - intros tier g' ->. reflexivity.
Qed.
End RoleSelector.

Lemma select_role_by_tier_witness :
  (@select_role demo "Technology" 4%nat).1 = Ok "Data Engineer"%string /\
  (@select_role demo "Finance" 7%nat).1 = Ok "Accountant"%string.
Proof.
  split.
  - destruct (@select_role_by_tier demo demo_in_range "Technology"
                (mkRoleEntry ["Software Engineer"; "Data Engineer"] ["Project Manager"]
                   [PyInt 1; PyInt 0])%string 4%nat eq_refl) as [Hprimary _].
    destruct Hprimary as [-> _]; [by left|]. reflexivity.
  - destruct (@select_role_by_tier demo demo_in_range "Finance"
                (mkRoleEntry ["Financial Analyst"] ["Accountant"; "Auditor"]
                   [PyInt 0; PyInt 1])%string 7%nat eq_refl) as (_ & Hsecondary & _).
    destruct Hsecondary as [-> _]; [by left|]. reflexivity.
Defined.

(** ** Seniority tiers and prompts *)




Section Seniority.
Context `{Collaborators} `{!RandomInRange}.

End Seniority.


Example build_prompt_junior :
  build_prompt "Healthcare" "Registered Nurse" 3 =
    Ok (SYSTEM_PROMPT,
        ("Registered Nurse in Healthcare, 3yrs exp.
1-2 jobs, education focus, 2-3 bullets each.
Include: relevant coursework/projects, internships count as jobs.
Skills: 8-12 relevant technical and soft skills.
Schema:" +:+ SCHEMA_STR)%string).
Proof. vm_compute. reflexivity. Qed.

(** ** Output paths *)

Lemma string_length_app (s t : string) :
  String.length (s +:+ t) = (String.length s + String.length t)%nat.
Proof. induction s as [|c s IH]; simpl; [done|]. by rewrite IH. Qed.

Lemma append_inv_tail (s1 s2 t : string) : (s1 +:+ t = s2 +:+ t)%string -> s1 = s2.
Proof.
  intros Heq.
  assert (Hlen : String.length s1 = String.length s2).
  { apply (f_equal String.length) in Heq. rewrite !string_length_app in Heq. lia. }
  revert s2 Heq Hlen. induction s1 as [|c s1 IH]; intros [|c' s2] Heq Hlen;
    try discriminate; [done|].
  cbn in Heq, Hlen. injection Heq as -> Heq. f_equal. apply IH; [done|lia].
Qed.

Lemma to_uint_not_nil (n : N) : N.to_uint n <> Nil.
Proof.
  destruct n as [|p]; [discriminate|]. apply DecimalPos.Unsigned.to_uint_nonnil.
Qed.

Lemma parse_digits_zeros (k : nat) (s : string) :
  parse_digits (zeros k +:+ s) = parse_digits s.
Proof.
  unfold parse_digits. induction k as [|k IH]; [reflexivity|].
  change (zeros (S k) +:+ s)%string with (String "0" (zeros k +:+ s)).
  change (NilEmpty.uint_of_string (String "0" (zeros k +:+ s)))
    with (uint_of_char "0" (NilEmpty.uint_of_string (zeros k +:+ s))).
  rewrite <- IH.
  destruct (NilEmpty.uint_of_string (zeros k +:+ s)) as [d|]; reflexivity.
Qed.

(** Reading a zero-padded index back gives the index. *)
Lemma parse_digits_zfill (width : nat) (n : Z) :
  parse_digits (zfill width (digits n)) = Some (Z.abs_N n).
Proof.
  unfold zfill. rewrite parse_digits_zeros. unfold parse_digits, digits.
  pose proof (to_uint_not_nil (Z.abs_N n)) as Hnil.
  unfold NilZero.string_of_uint.
  destruct (N.to_uint (Z.abs_N n)) as [|d|d|d|d|d|d|d|d|d|d] eqn:E; [done|..];
    rewrite <- E, NilEmpty.usu; cbn; f_equal; apply DecimalN.Unsigned.of_to.
Qed.

Lemma format_04d_inj (i j : Z) :
  0 <= i -> 0 <= j -> format_04d i = format_04d j -> i = j.
Proof.
  intros Hi Hj. unfold format_04d.
  destruct (Z.ltb_spec i 0), (Z.ltb_spec j 0); try lia.
  intros Heq. apply (f_equal parse_digits) in Heq.
  rewrite !parse_digits_zfill in Heq. injection Heq as Heq. lia.
Qed.

Lemma pdf_path_inj (i j : Z) :
  0 <= i -> 0 <= j -> pdf_path i = pdf_path j -> i = j.
Proof.
  intros Hi Hj Heq. unfold pdf_path in Heq.
  apply (inj (String.append OUTPUT_DIR)) in Heq.
  apply (inj (String.append "/")) in Heq.
  apply (inj (String.append "resume_")) in Heq.
  apply append_inv_tail in Heq. by apply format_04d_inj.
Qed.

Lemma pdf_path_not_cost_file (i : Z) : pdf_path i <> cost_file.
Proof.
  unfold pdf_path, cost_file. intros Heq.
  apply (inj (String.append OUTPUT_DIR)) in Heq.
  apply (inj (String.append "/")) in Heq. discriminate.
Qed.

(** Indices up to 9999 are written with exactly four digits. *)
Lemma format_04d_four_digits (i : Z) :
  0 <= i <= 9999 -> String.length (format_04d i) = 4%nat.
Proof.
  intros Hi.
  assert (Hall : Forall (fun k => String.length (format_04d k) = 4%nat) (seqZ 0 10000)).
  { refine (bool_decide_unpack _ _). vm_compute. exact I. }
  apply (proj1 (Forall_forall _ _) Hall). apply elem_of_seqZ. lia.
Qed.

Example pdf_path_examples :
  pdf_path 1 = "output/resume_0001.pdf"%string /\
  pdf_path 800 = "output/resume_0800.pdf"%string /\
  pdf_path 12345 = "output/resume_12345.pdf"%string.
Proof. vm_compute. repeat split. Qed.

(** ** The pipeline: what one step changes *)

Section PipelineSteps.
Context `{Collaborators}.

Lemma count_insert (f : phase -> bool) (js : list job) : forall (k : nat) (i i' : Z) (p p' : phase),
  js !! k = Some (mkJob i p) ->
  count f (<[k := mkJob i' p']> js) =
    count f js - (if f p then 1 else 0) + (if f p' then 1 else 0).
Proof.
  induction js as [|j js IH]; intros [|k] i i' p p' Hk; try done.
  - injection Hk as ->. cbn. lia.
  - cbn in Hk. cbn [count foldr insert list_insert]. fold (count f js).
    change (foldr _ 0 (<[k := mkJob i' p']> js)) with (count f (<[k := mkJob i' p']> js)).
    rewrite (IH k i i' p p' Hk). lia.
Qed.

Lemma count_nonneg (f : phase -> bool) (js : list job) : 0 <= count f js.
Proof. induction js as [|j js IH]; cbn; [lia|]. fold (count f js). destruct (f (status j)); lia. Qed.

Lemma count_le (f f' : phase -> bool) (js : list job) :
  (forall p, f p = true -> f' p = true) -> count f js <= count f' js.
Proof.
  intros Himp. induction js as [|j js IH]; cbn; [lia|].
  fold (count f js) (count f' js).
  destruct (f (status j)) eqn:E; [rewrite (Himp _ E)|destruct (f' (status j))]; lia.
Qed.

Lemma count_zero (f : phase -> bool) (js : list job) :
  (forall j, j ∈ js -> f (status j) = false) -> count f js = 0.
Proof.
  induction js as [|j js IH]; intros Hall; cbn; [done|]. fold (count f js).
  rewrite (Hall j) by set_solver. rewrite IH; [done|]. intros. apply Hall. set_solver.
Qed.


Lemma add_usage_appends (self : CostTracker) (i o : Z) :
  (exists e, (add_usage self i o).2 = Raise e /\
     resume_costs (add_usage self i o).1 = resume_costs self) \/
  (exists cost, (add_usage self i o).2 = Ok cost /\
     resume_costs (add_usage self i o).1 = resume_costs self ++ [cost]).
Proof.
  unfold add_usage.
  destruct (int_truediv i 1000000); [|left; eauto].
  destruct (int_truediv o 1000000); [right|left]; eauto.
Qed.

Lemma fail_effect (s s1 : run_state) (k : nat) (i : Z) (p : phase) (e : exn) :
  jobs s !! k = Some (mkJob i p) -> holds_slot p = true ->
  semaphore s1 = semaphore s -> jobs s1 = jobs s -> written s1 = written s ->
  raised s1 = raised s ->
  resume_costs (cost_tracker s) `prefix_of` resume_costs (cost_tracker s1) ->
  step_effect s (fail k i e s1) k i p (Failed e).
Proof.
  intros Hk Hheld Hsem Hjobs Hwritten Hraised Hcosts.
  unfold step_effect. cbn. rewrite Hsem, Hjobs, Hwritten, Hraised.
  unfold slot. rewrite Hheld. cbn.
  split_and!; try done; try lia.
  - by constructor.
  - intros Hne. by destruct (Hne e).
  - intros e' ->. done.
  - intros _ _. destruct (raised s); eauto.
Qed.

(** Every step is the move of one job, with [step_effect]. *)
Lemma step_moves (s s' : run_state) :
  step s s' ->
  exists (k : nat) (i : Z) (p p' : phase), step_effect s s' k i p p'.
Proof.
  intros Hstep. destruct Hstep as
    [k i Hk Hsem | k i Hk | k i tn sp up response Hk | k i tn sp up e Hk
    | k i data cost tn Hk | k i data cost tn e Hk | k i Hraised Hk | k i tn sp up Hraised Hk].
  - exists k, i, Pending, Selecting. unfold step_effect. cbn.
    split_and!; try done; try lia; [constructor|]. intros _. split; [done|lia].
  - unfold after_select. destruct (draw_request (random_state s)) as [r g].
    destruct r as [[[[industry role] seniority] tn]|e].
    + destruct (build_prompt industry role seniority) as [[sp up]|e].
      * exists k, i, Selecting, (Requesting tn sp up). unfold step_effect. cbn.
        split_and!; try done; try lia; [constructor|]. intros _. split; [done|lia].
      * exists k, i, Selecting, (Failed e). by apply fail_effect.
    + exists k, i, Selecting, (Failed e). by apply fail_effect.
  - unfold after_response, record_and_parse.
    destruct (add_usage_appends (cost_tracker s) (prompt_tokens response)
                (completion_tokens response))
      as [(e & Hr & Hcosts)|(c & Hr & Hcosts)];
      destruct (add_usage (cost_tracker s) (prompt_tokens response)
                  (completion_tokens response)) as [t r]; cbn [fst snd] in *; subst r.
    + exists k, i, (Requesting tn sp up), (Failed e).
      apply fail_effect; try done. cbn. by rewrite Hcosts.
    + destruct (json_loads (content response)) as [data|e].
      * exists k, i, (Requesting tn sp up), (Rendering data c tn).
        unfold step_effect. cbn. rewrite Hcosts, length_app. cbn.
        split_and!; try done; try lia; [constructor|by apply prefix_app_r|].
        intros _. split; [done|lia].
      * exists k, i, (Requesting tn sp up), (Failed e).
        apply fail_effect; try done. cbn. rewrite Hcosts. by apply prefix_app_r.
  - exists k, i, (Requesting tn sp up), (Failed e). by apply fail_effect.
  - exists k, i, (Rendering data cost tn), (Finished cost). unfold step_effect. cbn.
    split_and!; try done; try lia; [constructor|eauto|]. intros _. split; [done|lia].
  - exists k, i, (Rendering data cost tn), (Failed e). by apply fail_effect.
  - exists k, i, Pending, (Failed CancelledError). unfold step_effect. cbn.
    split_and!; try done; try lia; [apply move_cancel|].
    intros Hne. by destruct (Hne CancelledError).
  - exists k, i, (Requesting tn sp up), (Failed CancelledError). by apply fail_effect.
Qed.
End PipelineSteps.

(** ** The pipeline: slots *)

Section Slots.
Context `{Collaborators}.

Lemma start_state (total concurrency : Z) (g : rng) (s0 : run_state) :
  main_async_start total concurrency g = Ok s0 ->
  0 <= concurrency /\
  s0 = mkRun concurrency ((fun i => mkJob i Pending) <$> py_range 1 (total + 1))
         CostTracker_new g ∅ 0 None.
Proof.
  unfold main_async_start. destruct (Z.ltb_spec concurrency 0); [done|].
  intros [= <-]. done.
Qed.

Lemma start_all_pending (total : Z) (j : job) :
  j ∈ (fun i => mkJob i Pending) <$> py_range 1 (total + 1) -> status j = Pending.
Proof. intros (i & -> & _)%list_elem_of_fmap. reflexivity. Qed.

Lemma slots_conserved_step (concurrency : Z) (s s' : run_state) :
  step s s' -> slots_conserved concurrency s -> slots_conserved concurrency s'.
Proof.
  intros (k & i & p & p' & Hk & Hjobs & Hmove & Hsem & Hacq & _)%step_moves [Hsum Hpos].
  unfold slots_conserved. rewrite Hjobs, (count_insert _ _ _ _ _ _ _ Hk), Hsem.
  unfold slot. split; [lia|].
  destruct Hmove as [| | | |p e Hheld|]; cbn in *; try rewrite Hheld; try lia.
  specialize (Hacq eq_refl eq_refl). lia.
Qed.

Lemma slots_conserved_reachable (total concurrency : Z) (g : rng) (s : run_state) :
  reachable total concurrency g s -> slots_conserved concurrency s.
Proof.
  intros (s0 & Hstart & Hrun).
  apply start_state in Hstart as [Hpos ->].
  revert s Hrun. apply (rtc_ind_r (slots_conserved concurrency)).
  - split; [|done]. cbn [semaphore jobs]. rewrite count_zero; [lia|].
    intros j Hj. by rewrite (start_all_pending _ _ Hj).
  - intros s1 s2 _ Hstep IH. by eapply slots_conserved_step.
Qed.

(** C2. In every state a run of [main_async] reaches, the jobs inside
    [async with semaphore] (drawing, awaiting the API, rendering) together
    with the free slots make up [concurrency]; so they never outnumber
    [concurrency], and neither do the outstanding API calls.  A job outside
    the block is still [Pending] (it has done no work) or has settled; and
    every step moves one job along [job_move], taking a slot exactly when the
    job enters the block (before its draws) and returning it exactly when the
    job leaves (after rendering, or on an exception). *)
Theorem held_slots_bounded (total concurrency : Z) (g : rng) (s : run_state) :
  reachable total concurrency g s ->
  semaphore s + count holds_slot (jobs s) = concurrency /\
  0 <= semaphore s /\
  count calls_api (jobs s) <= count holds_slot (jobs s) <= concurrency /\
  (forall j, j ∈ jobs s ->
     holds_slot (status j) = false ->
     status j = Pending \/ settled (status j) = true) /\
  (forall s', step s s' ->
     exists (k : nat) (i : Z) (p p' : phase),
       jobs s !! k = Some (mkJob i p) /\
       jobs s' = <[k := mkJob i p']> (jobs s) /\
       job_move p p' /\
       semaphore s' = semaphore s + slot p - slot p').
Proof.
  intros [Hsum Hpos]%slots_conserved_reachable. split_and!; try done; try lia.
  - apply count_le. by intros [].
  - intros j _. destruct (status j); cbn; auto; discriminate.
  - intros s' (k & i & p & p' & Hk & Hjobs & Hmove & Hsem & _)%step_moves.
    by exists k, i, p, p'.
Qed.

(** C7. A step that takes a job out of [async with semaphore], by a
    return or by an exception raised in any phase, gives its slot back;
    and once every job of a run has settled the semaphore is back at
    [concurrency]. *)
Theorem slot_released_on_exit (total concurrency : Z) (g : rng) (s : run_state) :
  reachable total concurrency g s ->
  (forall s' k j j',
     step s s' ->
     jobs s !! k = Some j -> jobs s' !! k = Some j' ->
     holds_slot (status j) = true -> holds_slot (status j') = false ->
     settled (status j') = true /\ semaphore s' = semaphore s + 1) /\
  ((forall j, j ∈ jobs s -> settled (status j) = true) ->
   semaphore s = concurrency).
Proof.
  intros Hreach. split.
  - intros s' k j j' (k0 & i & p & p' & Hk0 & Hjobs & Hmove & Hsem & _)%step_moves
      Hj Hj' Hheld Hfree.
    rewrite Hjobs in Hj'. destruct (decide (k0 = k)) as [->|Hne].
    + rewrite Hk0 in Hj. injection Hj as <-.
      rewrite list_lookup_insert_eq in Hj' by (by eapply lookup_lt_Some).
      injection Hj' as <-. cbn in *. unfold slot in Hsem. rewrite Hheld, Hfree in Hsem.
      split; [|lia]. destruct Hmove; cbn in *; congruence.
    + rewrite list_lookup_insert_ne in Hj' by done. congruence.
  - intros Hsettled. destruct (slots_conserved_reachable _ _ _ _ Hreach) as [Hsum _].
    rewrite count_zero in Hsum; [lia|].
    intros j Hj. specialize (Hsettled j Hj). by destruct (status j).
Qed.
End Slots.

(** ** The stand-in run *)

Lemma demo_requesting_job :
  exists system_prompt user_prompt : string,
    @jobs demo demo_requesting !! 0%nat =
      Some (@mkJob demo 1 (@Requesting demo "minimal.html" system_prompt user_prompt)).
Proof. vm_compute. eexists. eexists. reflexivity. Qed.

Lemma demo_requesting_reachable : @reachable demo 1 1 0%nat demo_requesting.
Proof.
  exists demo_start. split; [reflexivity|].
  eapply rtc_l; [apply (@step_acquire demo demo_start 0 1); [reflexivity|done]|].
  apply rtc_once. apply (@step_select demo _ 0 1). reflexivity.
Qed.

Lemma demo_finished_reachable : @reachable demo 1 1 0%nat demo_finished.
Proof.
  destruct demo_requesting_reachable as (s0 & Hstart & Hrun).
  destruct demo_requesting_job as (sp & up & Hjob).
  exists s0. split; [exact Hstart|].
  eapply rtc_r; [eapply rtc_r; [exact Hrun|]|].
  - apply (@step_response demo _ 0 1 _ sp up demo_response Hjob).
  - apply (@step_render demo _ 0 1 "{}"%string (usage_cost (100, 50)) "minimal.html"%string).
    vm_compute. reflexivity.
Qed.

Lemma demo_failed_reachable : @reachable demo 1 1 0%nat demo_failed.
Proof.
  destruct demo_requesting_reachable as (s0 & Hstart & Hrun).
  destruct demo_requesting_job as (sp & up & Hjob).
  exists s0. split; [exact Hstart|].
  eapply rtc_r; [exact Hrun|].
  apply (@step_response demo _ 0 1 _ sp up demo_malformed_response Hjob).
Qed.

Lemma held_slots_bounded_witness :
  @semaphore demo demo_requesting + count holds_slot (@jobs demo demo_requesting) = 1 /\
  count calls_api (@jobs demo demo_requesting) = 1.
Proof.
  destruct (@held_slots_bounded demo 1 1 0%nat demo_requesting demo_requesting_reachable)
    as (Hsum & _).
  split; [exact Hsum|]. vm_compute. reflexivity.
Defined.

Lemma slot_released_on_exit_witness :
  @semaphore demo demo_finished = 1 /\ @semaphore demo demo_failed = 1.
Proof.
  split.
  - apply (@slot_released_on_exit demo 1 1 0%nat demo_finished demo_finished_reachable).
    intros j Hj. vm_compute in Hj. apply list_elem_of_singleton in Hj as ->. reflexivity.
  - apply (@slot_released_on_exit demo 1 1 0%nat demo_failed demo_failed_reachable).
    intros j Hj. vm_compute in Hj. apply list_elem_of_singleton in Hj as ->. reflexivity.
Defined.

(** ** The pipeline: failures *)

Section Failures.
Context `{Collaborators}.



End Failures.


(** ** The pipeline: output files and the cost log *)

Section Files.
Context `{Collaborators}.

Lemma job_move_not_finished (p p' : phase) : job_move p p' -> finished p = false.
Proof. destruct 1 as [| | | |p e Hheld|]; try done. by destruct p. Qed.

Lemma indices_step (s s' : run_state) :
  step s s' -> index <$> jobs s' = index <$> jobs s.
Proof.
  intros (k & i & p & p' & Hk & -> & _)%step_moves.
  rewrite list_fmap_insert. cbn. apply list_insert_id.
  by rewrite list_lookup_fmap, Hk.
Qed.

Lemma files_match_step (s s' : run_state) :
  step s s' -> files_match s -> files_match s'.
Proof.
  intros (k & i & p & p' & Hk & Hjobs & Hmove & _ & _ & Hsame & Hnew & _)%step_moves Hs path.
  pose proof (job_move_not_finished _ _ Hmove) as Hp.
  pose proof (lookup_lt_Some _ _ _ Hk) as Hlen.
  rewrite Hjobs. destruct (finished p') eqn:Hp'.
  - destruct (Hnew eq_refl) as [a ->]. destruct p' as [| | | |c'|]; try done.
    rewrite lookup_insert_is_Some. split.
    + intros [<-|[Hne Hin]].
      * exists k, i, c'. by rewrite list_lookup_insert_eq.
      * apply Hs in Hin as (k1 & i1 & c1 & Hk1 & ->).
        exists k1, i1, c1. split; [|done].
        rewrite list_lookup_insert_ne; [done|]. intros <-. rewrite Hk in Hk1.
        injection Hk1 as _ ->. done.
    + intros (k1 & i1 & c1 & Hk1 & ->).
      destruct (decide (k = k1)) as [<-|Hne].
      * rewrite list_lookup_insert_eq in Hk1 by done. injection Hk1 as <- _. by left.
      * rewrite list_lookup_insert_ne in Hk1 by done.
        destruct (decide (pdf_path i = pdf_path i1)) as [Heq|Hneq]; [by left|].
        right. split; [done|]. apply Hs. eauto.
  - rewrite (Hsame eq_refl), (Hs path). split.
    + intros (k1 & i1 & c1 & Hk1 & ->). exists k1, i1, c1. split; [|done].
      rewrite list_lookup_insert_ne; [done|]. intros <-. rewrite Hk in Hk1.
      injection Hk1 as _ ->. done.
    + intros (k1 & i1 & c1 & Hk1 & ->). exists k1, i1, c1. split; [|done].
      destruct (decide (k = k1)) as [<-|Hne].
      * rewrite list_lookup_insert_eq in Hk1 by done. injection Hk1 as _ ->. done.
      * by rewrite list_lookup_insert_ne in Hk1.
Qed.

Lemma costs_match_step (s s' : run_state) :
  step s s' -> costs_match s -> costs_match s'.
Proof.
  intros (k & i & p & p' & Hk & Hjobs & _ & _ & _ & _ & _ & _ & Hok & Hkeep & Hfailed)%step_moves
    Hs Hnone.
  assert (Hnofail : forall e, p' <> Failed e).
  { intros e ->. destruct (Hfailed e eq_refl) as [e' He']. congruence. }
  destruct (Hok Hnofail) as [Hraised Hlen].
  rewrite Hjobs, (count_insert _ _ _ _ _ _ _ Hk), Hlen, Hs; [lia|congruence].
Qed.

Lemma run_invariants (total concurrency : Z) (g : rng) (s : run_state) :
  reachable total concurrency g s ->
  index <$> jobs s = py_range 1 (total + 1) /\ files_match s /\ costs_match s.
Proof.
  intros (s0 & [_ ->]%start_state & Hrun).
  revert s Hrun.
  apply (rtc_ind_r (fun s => index <$> jobs s = py_range 1 (total + 1)
                            /\ files_match s /\ costs_match s)).
  - cbn [jobs]. split_and!.
    + rewrite <- list_fmap_compose. apply list_fmap_id.
    + intros path. cbn [written jobs]. rewrite lookup_empty. split.
      * by intros [? ?].
      * intros (k & i & c & Hk & _).
        apply list_elem_of_lookup_2, start_all_pending in Hk. done.
    + intros _. cbn [cost_tracker jobs]. rewrite count_zero; [done|].
      intros j Hj. by rewrite (start_all_pending _ _ Hj).
  - intros s1 s2 _ Hstep (Hidx & Hfiles & Hcosts). split_and!.
    + by rewrite (indices_step _ _ Hstep).
    + by eapply files_match_step.
    + by eapply costs_match_step.
Qed.

Lemma pdf_paths_distinct (total : Z) : NoDup (pdf_path <$> py_range 1 (total + 1)).
Proof.
  apply NoDup_fmap_2_strong; [|apply NoDup_seqZ].
  intros i j Hi%elem_of_seqZ Hj%elem_of_seqZ. apply pdf_path_inj; lia.
Qed.

Lemma all_finished_files (total concurrency : Z) (g : rng) (s : run_state) :
  reachable total concurrency g s ->
  (forall j, j ∈ jobs s -> finished (status j) = true) ->
  dom (written s) = list_to_set (pdf_path <$> py_range 1 (total + 1)).
Proof.
  intros (Hidx & Hfiles & _)%run_invariants Hall.
  apply set_eq. intros path.
  rewrite elem_of_dom, (Hfiles path), elem_of_list_to_set, <- Hidx, <- list_fmap_compose.
  rewrite list_elem_of_fmap. split.
  - intros (k & i & c & Hk & ->). exists (mkJob i (Finished c)).
    split; [done|]. by eapply list_elem_of_lookup_2.
  - intros (j & -> & Hj). specialize (Hall j Hj).
    apply list_elem_of_lookup_1 in Hj as [k Hk].
    destruct j as [i p]. destruct p as [| | | |c|]; try done.
    by exists k, i, c.
Qed.

(** C8. With [total >= 0], [main_async] creates [total] jobs whose indices
    are [1 .. total] in order, all waiting; the paths [pdf_path] gives these
    indices are pairwise distinct, each the index in decimal, zero-padded to
    four digits (exactly four up to 9999); and on every schedule, once all
    jobs have returned the files written are exactly these [total] paths. *)
Theorem one_file_per_index (total concurrency : Z) (g : rng) (s0 : run_state) :
  0 <= total ->
  main_async_start total concurrency g = Ok s0 ->
  index <$> jobs s0 = seqZ 1 total /\
  length (jobs s0) = Z.to_nat total /\
  (forall j, j ∈ jobs s0 -> status j = Pending) /\
  NoDup (pdf_path <$> seqZ 1 total) /\
  (forall i, 1 <= i <= total ->
     pdf_path i = (OUTPUT_DIR +:+ "/resume_" +:+ format_04d i +:+ ".pdf")%string /\
     parse_digits (format_04d i) = Some (Z.to_N i) /\
     (i <= 9999 -> String.length (format_04d i) = 4%nat)) /\
  forall s, rtc step s0 s ->
    (forall j, j ∈ jobs s -> finished (status j) = true) ->
    dom (written s) = list_to_set (pdf_path <$> seqZ 1 total) /\
    size (written s) = Z.to_nat total.
Proof.
  intros Htotal Hstart.
  assert (Hrange : py_range 1 (total + 1) = seqZ 1 total).
  { unfold py_range. f_equal. lia. }
  pose proof (pdf_paths_distinct total) as Hnodup. rewrite Hrange in Hnodup.
  pose proof (start_state _ _ _ _ Hstart) as [_ Hs0].
  split_and!.
  - rewrite Hs0. cbn [jobs]. rewrite Hrange, <- list_fmap_compose. apply list_fmap_id.
  - rewrite Hs0. cbn [jobs]. by rewrite Hrange, length_fmap, length_seqZ.
  - rewrite Hs0. cbn [jobs]. apply start_all_pending.
  - exact Hnodup.
  - intros i Hi. split_and!.
    + reflexivity.
    + unfold format_04d. destruct (Z.ltb_spec i 0); [lia|].
      rewrite parse_digits_zfill. f_equal. lia.
    + intros Hle. apply format_04d_four_digits. lia.
  - intros s Hrun Hall.
    assert (Hdom : dom (written s) = list_to_set (pdf_path <$> seqZ 1 total)).
    { rewrite <- Hrange. eapply all_finished_files; [|exact Hall]. by exists s0. }
    split; [exact Hdom|].
    rewrite <- size_dom, Hdom, size_list_to_set by exact Hnodup.
    by rewrite length_fmap, length_seqZ.
Qed.
End Files.

Lemma one_file_per_index_witness :
  dom (@written demo demo_finished) = {[ "output/resume_0001.pdf"%string ]} /\
  size (@written demo demo_finished) = 1%nat.
Proof.
  destruct demo_finished_reachable as (s0 & Hstart & Hrun).
  destruct (@one_file_per_index demo 1 1 0%nat s0 ltac:(lia) Hstart)
    as (_ & _ & _ & _ & _ & Hfiles).
  destruct (Hfiles demo_finished Hrun) as [Hdom Hsize].
  { intros j Hj. vm_compute in Hj. apply list_elem_of_singleton in Hj as ->. reflexivity. }
  split; [|exact Hsize]. rewrite Hdom. vm_compute. reflexivity.
Defined.

Section CostLog.
Context `{Collaborators}.

Lemma no_cost_log_before_finish (total concurrency : Z) (g : rng) (s : run_state) :
  reachable total concurrency g s -> written s !! cost_file = None.
Proof.
  intros (_ & Hfiles & _)%run_invariants.
  destruct (written s !! cost_file) eqn:E; [|done].
  destruct (proj1 (Hfiles cost_file)) as (k & i & c & _ & Hpath); [by eexists|].
  symmetry in Hpath. by apply pdf_path_not_cost_file in Hpath.
Qed.

Lemma gather_returned (s : run_state) :
  gather s = Some (Ok ()) ->
  raised s = None /\ forall j, j ∈ jobs s -> finished (status j) = true.
Proof.
  unfold gather. destruct (raised s); [done|].
  destruct (forallb _ _) eqn:Hall; [|done]. intros _. split; [done|].
  intros j Hj. rewrite forallb_forall in Hall. apply Hall. by apply list_elem_of_In.
Qed.


End CostLog.

Lemma demo_run_returns (save_costs : bool) :
  exists files, @main_async demo 1 save_costs 1 fone 0%nat files (Ok ()).
Proof.
  destruct (@main_async_finish demo 1 save_costs fone demo_finished) as [s'|] eqn:Hfinish.
  - exists (@written demo s').
    apply (@main_async_returned demo _ _ _ _ _ demo_finished s');
      [exact demo_finished_reachable|reflexivity|exact Hfinish].
  - destruct save_costs; vm_compute in Hfinish; discriminate.
Qed.



(** * Further properties *)

(** ** [add_usage] on every input *)

(** X1. [add_usage] adds both token counts to the counters on every call,
    also when it raises; it appends a cost exactly when it returns; and it
    raises, with [OverflowError], exactly when one of the counts is too large
    for its division by one million to be a float, which leaves the counters
    ahead of the cost list. *)
Theorem add_usage_counts_before_cost (self : CostTracker) (input_tokens output_tokens : Z) :
  let after := (add_usage self input_tokens output_tokens).1 in
  let returned := (add_usage self input_tokens output_tokens).2 in
  let divides := Z.abs input_tokens < TOKEN_LIMIT /\ Z.abs output_tokens < TOKEN_LIMIT in
  total_input_tokens after = total_input_tokens self + input_tokens /\
  total_output_tokens after = total_output_tokens self + output_tokens /\
  (divides ->
     returned = Ok (usage_cost (input_tokens, output_tokens)) /\
     resume_costs after = resume_costs self ++ [usage_cost (input_tokens, output_tokens)]) /\
  (~ divides ->
     returned = Raise OverflowError /\ resume_costs after = resume_costs self).
Proof.
  cbv zeta. unfold add_usage, int_truediv.
  change (1000000 =? 0) with false. change (Z.abs 1000000) with 1000000.
  fold TOKEN_LIMIT. cbv iota.
  destruct (Z.leb_spec TOKEN_LIMIT (Z.abs input_tokens)) as [Hi|Hi];
    [|destruct (Z.leb_spec TOKEN_LIMIT (Z.abs output_tokens)) as [Ho|Ho]];
    cbn [fst snd total_input_tokens total_output_tokens resume_costs];
    split_and!; try done; try (intros [? ?]; lia); try (intros Hnot; lia).
Qed.

Example add_usage_overflow :
  let after := (add_usage CostTracker_new (10 ^ 320) 5).1 in
  (add_usage CostTracker_new (10 ^ 320) 5).2 = Raise OverflowError /\
  total_input_tokens after = 10 ^ 320 /\ total_output_tokens after = 5 /\
  resume_costs after = [].
Proof. vm_compute. repeat split. Qed.

(** ** The role selector on every table *)

Section RoleSelectorTotal.
Context `{Collaborators}.

Lemma accumulate_from_length (l : list pynum) : forall acc : pynum,
  length (accumulate_from acc l) = length l.
Proof. induction l as [|w l IH]; intros acc; cbn; [done|]. by rewrite IH. Qed.

Lemma accumulate_length (l : list pynum) : length (accumulate l) = length l.
Proof. destruct l as [|w l]; cbn; [done|]. by rewrite accumulate_from_length. Qed.

Lemma range_length (n : nat) : length (py_range 0 (Z.of_nat n)) = n.
Proof. unfold py_range. rewrite length_seqZ. lia. Qed.

Lemma range_lookup (n : nat) (i : Z) :
  0 <= i < Z.of_nat n -> py_range 0 (Z.of_nat n) !! Z.to_nat i = Some i.
Proof.
  intros Hi. unfold py_range.
  rewrite lookup_seqZ. split; [lia|]. lia.
Qed.

(** The loop of [bisect_right] stays between [lo] and [hi] and only reads
    positions below [hi]. *)
Lemma bisect_loop_bounds (a : list pynum) (x : float) (fuel : nat) :
  forall lo hi : Z,
    0 <= lo <= hi -> hi <= Z.of_nat (length a) ->
    exists i : Z, bisect_loop fuel a x lo hi = Ok i /\ lo <= i <= hi.
Proof.
  induction fuel as [|fuel IH]; intros lo hi Hlo Hhi; cbn [bisect_loop].
  - exists lo. split; [done|lia].
  - destruct (Z.ltb_spec lo hi) as [Hlt|]; [|exists lo; split; [done|lia]].
    pose proof (Z.div_le_lower_bound (lo + hi) 2 lo ltac:(lia) ltac:(lia)).
    pose proof (Z.div_lt_upper_bound (lo + hi) 2 hi ltac:(lia) ltac:(lia)).
    destruct (lookup_lt_is_Some_2 a (Z.to_nat ((lo + hi) `div` 2))) as [am ->]; [lia|].
    destruct (float_lt_num x am).
    + destruct (IH lo ((lo + hi) `div` 2)) as (i & -> & Hi); [lia..|].
      exists i. split; [done|lia].
    + destruct (IH ((lo + hi) `div` 2 + 1) hi) as (i & -> & Hi); [lia..|].
      exists i. split; [done|lia].
Qed.

(** With at least one weight and a positive, finite total, the weighted
    draw returns an index of the weight vector after one call of
    [random()]. *)
Lemma random_choices_returns (ws : list pynum) (w : pynum) (g : rng) :
  last (accumulate ws) = Some w ->
  fle (fadd (to_float w) fzero) fzero = false ->
  is_finite (fadd (to_float w) fzero) = true ->
  exists tier : Z,
    random_choices (py_range 0 (Z.of_nat (length ws))) ws g = (Ok tier, (rng_random g).2) /\
    0 <= tier < Z.of_nat (length ws).
Proof.
  intros Hlast Hpos Hfin. unfold random_choices.
  rewrite accumulate_length, range_length, Z.eqb_refl, Hlast, Hpos, Hfin. cbn [negb].
  assert (Hlen : (0 < length ws)%nat).
  { destruct ws; [done|cbn; lia]. }
  destruct (rng_random g) as [r g']. cbn [snd].
  destruct (bisect_loop_bounds (accumulate ws) (fmul r (fadd (to_float w) fzero))
              (Z.to_nat (Z.of_nat (length ws) - 1 - 0)) 0 (Z.of_nat (length ws) - 1))
    as (i & Hi & Hrange); [lia|rewrite accumulate_length; lia|].
  unfold bisect_right. rewrite Hi. cbn.
  rewrite range_lookup by lia. exists i. split; [done|lia].
Qed.

Lemma random_choice_returned {A} (seq : list A) (g : rng) (x : A) :
  (random_choice seq g).1 = Ok x -> x ∈ seq.
Proof.
  unfold random_choice. destruct seq as [|a seq]; [done|].
  destruct (rng_randbelow _ g) as [i g']. cbn [fst].
  destruct ((a :: seq) !! Z.to_nat i) as [y|] eqn:Hy; [|done].
  intros [= <-]. by eapply list_elem_of_lookup_2.
Qed.


Lemma select_role_entry (industry role : string) (mapping : role_entry) (g : rng) :
  ROLE_MAPPING !! industry = Some mapping ->
  (select_role industry g).1 = Ok role ->
  role ∈ primary mapping \/ role ∈ secondary mapping.
Proof.
  intros Hmap. unfold select_role. rewrite Hmap.
  destruct (random_choices _ _ g) as [[tier|e] g']; [|done].
  destruct (tier =? 0); intros Hrole; apply random_choice_returned in Hrole; auto.
Qed.

(** X3. A role [select_role] returns is never made up: the industry is a
    key of the table and the role belongs to its primary or to its secondary
    pool, whatever the weights and whatever the random source does. *)
Theorem select_role_from_pools (industry role : string) (g : rng) :
  (select_role industry g).1 = Ok role ->
  exists mapping : role_entry,
    ROLE_MAPPING !! industry = Some mapping /\
    (role ∈ primary mapping \/ role ∈ secondary mapping).
Proof.
  intros Hrole. destruct (ROLE_MAPPING !! industry) as [mapping|] eqn:Hmap.
  - exists mapping. split; [done|]. by eapply select_role_entry.
  - unfold select_role in Hrole. by rewrite Hmap in Hrole.
Qed.
End RoleSelectorTotal.

Section RoleSelectorReturns.
Context `{Collaborators} `{!RandomInRange}.

(** X4. For an industry of the table whose weight vector is not empty and
    has a positive, finite total, and whose two pools are not empty,
    [select_role] returns a role of one of the two pools. *)
Theorem select_role_returns (industry : string) (mapping : role_entry) (w : pynum)
    (g : rng) :
  ROLE_MAPPING !! industry = Some mapping ->
  last (accumulate (weights mapping)) = Some w ->
  fle (fadd (to_float w) fzero) fzero = false ->
  is_finite (fadd (to_float w) fzero) = true ->
  primary mapping <> [] -> secondary mapping <> [] ->
  exists role : string,
    (select_role industry g).1 = Ok role /\
    (role ∈ primary mapping \/ role ∈ secondary mapping).
Proof.
  intros Hmap Hlast Hpos Hfin Hprimary Hsecondary.
  unfold select_role. rewrite Hmap.
  destruct (random_choices_returns _ _ g Hlast Hpos Hfin) as (tier & -> & _).
  destruct (tier =? 0).
  - destruct (random_choice_member (primary mapping) (rng_random g).2 Hprimary)
      as (role & Hrole & Hin). eauto.
  - destruct (random_choice_member (secondary mapping) (rng_random g).2 Hsecondary)
      as (role & Hrole & Hin). eauto.
Qed.
End RoleSelectorReturns.

Lemma select_role_from_pools_witness :
  exists mapping : role_entry,
    demo_table !! "Technology"%string = Some mapping /\
    ("Data Engineer"%string ∈ primary mapping \/ "Data Engineer"%string ∈ secondary mapping).
Proof.
  apply (@select_role_from_pools demo "Technology" "Data Engineer" 4%nat).
  vm_compute. reflexivity.
Defined.

Lemma select_role_returns_witness :
  exists role : string, (@select_role demo "Finance" 2%nat).1 = Ok role.
Proof.
  destruct (@select_role_returns demo demo_in_range "Finance"
              (mkRoleEntry ["Financial Analyst"] ["Accountant"; "Auditor"]
                 [PyInt 0; PyInt 1])%string (PyInt 1) 2%nat)
    as (role & Hrole & _); try (vm_compute; reflexivity); try done.
  by exists role.
Defined.

Example select_role_unknown_industry :
  @select_role demo "Retail" 3%nat = (Raise KeyError, 3%nat).
Proof. vm_compute. reflexivity. Qed.

(** ** The draws of a job *)

Section Draws.
Context `{Collaborators} `{!RandomInRange}.





End Draws.

Example demo_draws :
  (@draw_request demo 0%nat).1 = Ok ("Finance", "Accountant", 4, "minimal.html")%string.
Proof. vm_compute. reflexivity. Qed.


(** ** More on the pipeline *)

Section PipelineMore.
Context `{Collaborators}.

(** What a step does to the progress bar and to the number of recorded
    costs. *)
Lemma step_accounting (s s' : run_state) :
  step s s' ->
  exists (k : nat) (i : Z) (p p' : phase),
    jobs s !! k = Some (mkJob i p) /\
    jobs s' = <[k := mkJob i p']> (jobs s) /\
    job_move p p' /\
    progress s' = progress s + (if finished p' then 1 else 0) /\
    Z.of_nat (length (resume_costs (cost_tracker s)))
      <= Z.of_nat (length (resume_costs (cost_tracker s'))) /\
    Z.of_nat (length (resume_costs (cost_tracker s')))
      <= Z.of_nat (length (resume_costs (cost_tracker s))) + (if calls_api p then 1 else 0) /\
    (recorded p' = true ->
       Z.of_nat (length (resume_costs (cost_tracker s'))) =
         Z.of_nat (length (resume_costs (cost_tracker s))) + 1
         - (if recorded p then 1 else 0)).
Proof.
  intros Hstep. destruct Hstep as
    [k i Hk Hsem | k i Hk | k i tn sp up response Hk | k i tn sp up e Hk
    | k i data cost tn Hk | k i data cost tn e Hk | k i Hraised Hk | k i tn sp up Hraised Hk].
  - exists k, i, Pending, Selecting. cbn.
    split_and!; try done; try lia. constructor.
  - unfold after_select. destruct (draw_request (random_state s)) as [r g].
    destruct r as [[[[industry role] seniority] tn]|e];
      [destruct (build_prompt industry role seniority) as [[sp up]|e]|].
    + exists k, i, Selecting, (Requesting tn sp up). cbn.
      split_and!; try done; try lia. constructor.
    + exists k, i, Selecting, (Failed e). cbn.
      split_and!; try done; try lia. by constructor.
    + exists k, i, Selecting, (Failed e). cbn.
      split_and!; try done; try lia. by constructor.
  - unfold after_response, record_and_parse.
    destruct (add_usage_appends (cost_tracker s) (prompt_tokens response)
                (completion_tokens response))
      as [(e & Hr & Hcosts)|(c & Hr & Hcosts)];
      destruct (add_usage (cost_tracker s) (prompt_tokens response)
                  (completion_tokens response)) as [t r]; cbn [fst snd] in *; subst r.
    + exists k, i, (Requesting tn sp up), (Failed e). cbn. rewrite Hcosts.
      split_and!; try done; try lia. by constructor.
    + destruct (json_loads (content response)) as [data|e].
      * exists k, i, (Requesting tn sp up), (Rendering data c tn). cbn.
        rewrite Hcosts, length_app. cbn.
        split_and!; try done; try lia; try (intros _; lia); constructor.
      * exists k, i, (Requesting tn sp up), (Failed e). cbn.
        rewrite Hcosts, length_app. cbn.
        split_and!; try done; try lia. by constructor.
  - exists k, i, (Requesting tn sp up), (Failed e). cbn.
    split_and!; try done; try lia. by constructor.
  - exists k, i, (Rendering data cost tn), (Finished cost). cbn.
    split_and!; try done; try lia; try (intros _; lia); constructor.
  - exists k, i, (Rendering data cost tn), (Failed e). cbn.
    split_and!; try done; try lia. by constructor.
  - exists k, i, Pending, (Failed CancelledError). cbn.
    split_and!; try done; try lia. apply move_cancel.
  - exists k, i, (Requesting tn sp up), (Failed CancelledError). cbn.
    split_and!; try done; try lia. by constructor.
Qed.




Lemma count_positive (f : phase -> bool) (js : list job) :
  0 < count f js -> exists (k : nat) (j : job), js !! k = Some j /\ f (status j) = true.
Proof.
  induction js as [|j js IH]; cbn; [lia|]. fold (count f js).
  destruct (f (status j)) eqn:Hf.
  - intros _. by exists 0%nat, j.
  - intros Hpos. destruct IH as (k & j' & Hk & Hj'); [lia|]. by exists (S k), j'.
Qed.

(** X7. With at least one slot a run never gets stuck: in every reachable
    state with a job that has not settled, some job can take a step. *)
Theorem no_deadlock (total concurrency : Z) (g : rng) (s : run_state) (j : job) :
  reachable total concurrency g s ->
  0 < concurrency ->
  j ∈ jobs s -> settled (status j) = false ->
  exists s', step s s'.
Proof.
  intros [Hsum Hpos]%slots_conserved_reachable Hc Hj Hunsettled.
  assert (Hheld : forall k i p, jobs s !! k = Some (mkJob i p) -> holds_slot p = true ->
            exists s', step s s').
  { intros k i p Hk Hp. destruct p as [| |tn sp up|data cost tn| |]; try done.
    - eexists. by eapply step_select.
    - eexists. by eapply (step_api_error s k i tn sp up APIError).
    - eexists. by eapply step_render. }
  destruct (decide (0 < count holds_slot (jobs s))) as [Hbusy|Hidle].
  - apply count_positive in Hbusy as (k & [i p] & Hk & Hp). by eapply Hheld.
  - pose proof (count_nonneg holds_slot (jobs s)).
    apply list_elem_of_lookup_1 in Hj as [k Hk]. destruct j as [i p].
    destruct p as [| | | | |]; try done.
    + eexists. eapply step_acquire; [exact Hk|lia].
    + eapply Hheld; [exact Hk|done].
    + eapply Hheld; [exact Hk|done].
    + eapply Hheld; [exact Hk|done].
Qed.



Lemma step_past_request (s s' : run_state) :
  step s s' ->
  count recorded (jobs s) <= Z.of_nat (length (resume_costs (cost_tracker s)))
     <= count past_request (jobs s) ->
  count recorded (jobs s') <= Z.of_nat (length (resume_costs (cost_tracker s')))
     <= count past_request (jobs s').
Proof.
  intros Hstep [Hlow Hhigh].
  destruct (step_accounting _ _ Hstep)
    as (k & i & p & p' & Hk & Hjobs & Hmove & _ & Hkeep & Hup & Hrec).
  rewrite Hjobs, !(count_insert _ _ _ _ _ _ _ Hk).
  destruct Hmove as [| | | |p e Hheld|]; cbn in *;
    try specialize (Hrec eq_refl); try (destruct p; try done; cbn in * ); lia.
Qed.

(** X9. Along every run the progress bar has advanced once per job that
    returned, and the tracker holds at least one cost per job whose response
    was parsed and at most one per job that got past its request; so it
    never holds more costs than there are jobs. *)
Theorem progress_and_costs_bounded (total concurrency : Z) (g : rng) (s : run_state) :
  reachable total concurrency g s ->
  progress s = count finished (jobs s) /\
  count recorded (jobs s) <= Z.of_nat (length (resume_costs (cost_tracker s))) /\
  Z.of_nat (length (resume_costs (cost_tracker s))) <= count past_request (jobs s) /\
  count past_request (jobs s) <= Z.max 0 total.
Proof.
  intros Hreach.
  assert (Hlen : Z.of_nat (length (jobs s)) = Z.max 0 total).
  { destruct (run_invariants _ _ _ _ Hreach) as (Hidx & _).
    apply (f_equal length) in Hidx. unfold py_range in Hidx.
    rewrite length_fmap, length_seqZ in Hidx. lia. }
  assert (Hbound : count past_request (jobs s) <= Z.of_nat (length (jobs s))).
  { clear. induction (jobs s) as [|j js IH]; cbn; [lia|]. fold (count past_request js).
    destruct (past_request (status j)); lia. }
  destruct Hreach as (s0 & [_ ->]%start_state & Hrun).
  cut (progress s = count finished (jobs s) /\
       count recorded (jobs s) <= Z.of_nat (length (resume_costs (cost_tracker s)))
         <= count past_request (jobs s)); [intros (? & ? & ?); split_and!; [done..|lia]|].
  clear Hlen Hbound. revert s Hrun.
  apply (rtc_ind_r (fun s => progress s = count finished (jobs s) /\
       count recorded (jobs s) <= Z.of_nat (length (resume_costs (cost_tracker s)))
         <= count past_request (jobs s))).
  - cbn [progress jobs cost_tracker resume_costs CostTracker_new length].
    rewrite !count_zero; [lia|intros j Hj; by rewrite (start_all_pending _ _ Hj)..].
  - intros s1 s2 _ Hstep [Hprog Hcosts]. split; [|by eapply step_past_request].
    destruct (step_accounting _ _ Hstep) as (k & i & p & p' & Hk & Hjobs & Hmove & Hp & _).
    rewrite Hp, Hprog, Hjobs, (count_insert _ _ _ _ _ _ _ Hk).
    rewrite (job_move_not_finished _ _ Hmove). lia.
Qed.

(** X10. What a call that returns leaves behind, for [total >= 0]: the
    [total] files [resume_0001.pdf], ..., one per index, together with the
    cost log exactly when [save_costs] is set, and nothing else. *)
Theorem returned_run_output (total : Z) (save_costs : bool) (concurrency : Z)
    (elapsed : float) (g : rng) (files : gmap string artifact) :
  main_async total save_costs concurrency elapsed g files (Ok ()) ->
  0 <= total ->
  dom files = list_to_set (pdf_path <$> seqZ 1 total)
                ∪ (if save_costs then {[cost_file]} else ∅) /\
  size files = (Z.to_nat total + (if save_costs then 1 else 0))%nat.
Proof.
  intros Hrun Htotal.
  inversion Hrun as [| | |s s' Hreach Hgather Hfinish Hfiles]. subst.
  destruct (gather_returned _ Hgather) as [_ Hall].
  pose proof (all_finished_files _ _ _ _ Hreach Hall) as Hdom.
  pose proof (pdf_paths_distinct total) as Hnodup.
  replace (py_range 1 (total + 1)) with (seqZ 1 total) in Hdom, Hnodup
    by (unfold py_range; f_equal; lia).
  assert (Hsize : size (written s) = Z.to_nat total).
  { rewrite <- size_dom, Hdom, size_list_to_set by done.
    by rewrite length_fmap, length_seqZ. }
  unfold main_async_finish in Hfinish.
  destruct (create_summary_table total elapsed (cost_tracker s)); [|done].
  cbn in Hfinish. destruct save_costs.
  - destruct (cost_log total elapsed (cost_tracker s)) as [log|]; [|done].
    cbn in Hfinish. injection Hfinish as <-. cbn [written]. split.
    + rewrite dom_insert_L, Hdom. apply (comm_L (∪)).
    + rewrite map_size_insert_None by (by eapply no_cost_log_before_finish). lia.
  - injection Hfinish as <-. split; [by rewrite Hdom, (right_id_L ∅ (∪))|lia].
Qed.

(** X11. A total that is not positive launches no job: the run starts with
    an empty job list, [gather] returns at once, and no PDF is ever
    written. *)
Theorem no_jobs_without_resumes (total concurrency : Z) (g : rng) (s : run_state) :
  total <= 0 ->
  reachable total concurrency g s ->
  jobs s = [] /\ written s = ∅ /\ gather s = Some (Ok ()) /\
  resume_costs (cost_tracker s) = [].
Proof.
  intros Htotal (s0 & [_ ->]%start_state & Hrun).
  assert (Hempty : py_range 1 (total + 1) = []).
  { unfold py_range, seqZ. by replace (Z.to_nat (total + 1 - 1)) with 0%nat by lia. }
  rewrite Hempty in Hrun. cbn in Hrun.
  apply rtc_inv in Hrun as [<-|(s1 & Hstep & _)]; [done|].
  apply step_moves in Hstep as (k & i & p & p' & Hk & _). done.
Qed.

End PipelineMore.


Lemma no_deadlock_witness : exists s', @step demo demo_requesting s'.
Proof.
  destruct demo_requesting_job as (sp & up & Hjob).
  apply (@no_deadlock demo 1 1 0%nat demo_requesting
           (@mkJob demo 1 (@Requesting demo "minimal.html" sp up))
           demo_requesting_reachable); [lia| |reflexivity].
  by eapply list_elem_of_lookup_2.
Defined.

Lemma progress_and_costs_bounded_witness :
  @progress demo demo_finished = 1 /\
  Z.of_nat (length (resume_costs (@cost_tracker demo demo_failed))) <= 1.
Proof.
  destruct (@progress_and_costs_bounded demo 1 1 0%nat demo_finished demo_finished_reachable)
    as (Hprogress & _).
  destruct (@progress_and_costs_bounded demo 1 1 0%nat demo_failed demo_failed_reachable)
    as (_ & _ & Hupper & Hjobs).
  split; [rewrite Hprogress; vm_compute; reflexivity|].
  etrans; [exact Hupper|exact Hjobs].
Defined.

Lemma returned_run_output_witness :
  exists files, @main_async demo 1 true 1 fone 0%nat files (Ok ()) /\ size files = 2%nat.
Proof.
  destruct (demo_run_returns true) as (files & Hrun).
  exists files. split; [exact Hrun|].
  by destruct (@returned_run_output demo 1 true 1 fone 0%nat files Hrun ltac:(lia)).
Defined.

Lemma no_jobs_without_resumes_witness :
  @gather demo (@mkRun demo 3 [] CostTracker_new 7%nat ∅ 0 None) = Some (Ok ()).
Proof.
  apply (@no_jobs_without_resumes demo 0 3 7%nat); [lia|].
  eexists. split; [reflexivity|]. apply rtc_refl.
Defined.


(** ** The text of the prompts *)


Example build_prompt_keeps_braces :
  exists rest : string,
    build_prompt "{industry}" "{schema}" 12 =
      Ok (SYSTEM_PROMPT, ("{schema} in {industry}, 12yrs exp." +:+ rest)%string).
Proof. vm_compute. eexists. reflexivity. Qed.

(** ** [render_pdf] and [generate_resume_data] *)

Lemma take_ten_strings (l : list string) (extra : list pyjson) :
  length l = 10%nat ->
  mapM as_string (take 10 ((PString <$> l) ++ extra)) = Some l.
Proof.
  intros Hlen. rewrite take_app_length' by (by rewrite length_fmap).
  by apply mapM_fmap_Some.
Qed.

(** X14. [render_pdf] always replaces the name, e-mail, phone and location
    of the record by the Faker values, also when the model's answer had such
    keys, and leaves every other key of the answer as it was; the author of
    the PDF is that same name.  The keywords are read from the answer's
    skills only: they are empty without a "skills" key, and of a list they
    use the first ten entries and nothing after them. *)
Theorem render_pdf_contact_and_keywords (resume_data : gmap string pyjson)
    (fake : FakeContact) :
  let record := add_contact_info resume_data fake in
  record !! "name"%string = Some (PString (fake_name fake)) /\
  record !! "email"%string = Some (PString (fake_email fake)) /\
  record !! "phone"%string = Some (PString (fake_phone_number fake)) /\
  record !! "location"%string
    = Some (PString (fake_city fake +:+ ", " +:+ fake_state_abbr fake)%string) /\
  (forall key : string,
     key ∉ ["name"; "email"; "phone"; "location"]%string ->
     record !! key = resume_data !! key) /\
  skills_keywords record = skills_keywords resume_data /\
  (forall metadata, pdf_metadata record (fake_name fake) = Some metadata ->
     (list_to_map metadata : gmap string string) !! "author"%string = Some (fake_name fake)) /\
  (resume_data !! "skills"%string = None ->
     skills_keywords resume_data = Some EmptyString) /\
  (forall (l : list string) (extra : list pyjson),
     resume_data !! "skills"%string = Some (PArray ((PString <$> l) ++ extra)) ->
     length l = 10%nat ->
     skills_keywords resume_data = Some (String.concat ", " l)).
Proof.
  cbv zeta. unfold add_contact_info. split_and!.
  - by simplify_map_eq.
  - by simplify_map_eq.
  - by simplify_map_eq.
  - by simplify_map_eq.
  - intros key Hkey. rewrite !lookup_insert_ne; [done|intros <-; apply Hkey; set_solver..].
  - unfold skills_keywords. by rewrite !lookup_insert_ne.
  - intros metadata. unfold pdf_metadata.
    destruct (skills_keywords _) as [keywords|]; [|done].
    intros [= <-]. reflexivity.
  - intros Hnone. unfold skills_keywords. by rewrite Hnone.
  - intros l extra Hskills Hlen. unfold skills_keywords.
    by rewrite Hskills, take_ten_strings.
Qed.

Example keywords_examples :
  skills_keywords {[ "skills"%string := PArray [PString "SQL"; PString "Python"] ]}
    = Some "SQL, Python"%string /\
  skills_keywords {[ "skills"%string := PString "SQL" ]} = Some "S, Q, L"%string /\
  skills_keywords {[ "skills"%string := PArray [PString "SQL"; PNull] ]} = None /\
  skills_keywords {[ "skills"%string := PNull ]} = None.
Proof. vm_compute. repeat split. Qed.


Section GenerationCases.
Context `{Collaborators}.

End GenerationCases.
